(** * PNG export with greedy compression-parameter search

    A shallow embedding of [openage/convert/service/export/png/png_create.pyx]
    ([save], [optimize_default], [optimize_greedy], [optimize_greedy_iterate],
    [write_to_file]) over an abstract libpng / libc, and the properties of the
    encode facade and of the parameter search.

    libpng and the C library are external: they are the fields of the record
    [Libs].  Every call that reaches libpng's encoder is logged in a trace of
    [event]s, which is the state threaded through the program. *)

From Stdlib Require Import String ZArith List Lia Bool.
Import ListNotations.
Open Scope Z_scope.

(* ================================================================== *)
(** ** C integer types *)

Definition byte := Byte.byte.

(** [unsigned int] (32 bit): conversion keeps the low 32 bits. *)
Definition as_unsigned_int (z : Z) : Z := z mod 2 ^ 32.

(** [int] (32 bit, two's complement): conversion wraps around. *)
Definition as_int (z : Z) : Z := (z + 2 ^ 31) mod 2 ^ 32 - 2 ^ 31.

(** [range(lo, hi)] *)
Definition range (lo hi : Z) : list Z :=
  map (fun i => lo + Z.of_nat i) (seq 0 (Z.to_nat (hi - lo))).

(* ================================================================== *)
(** ** Data model *)

(** [class CompressionMethod(Enum)] *)
Inductive CompressionMethod : Set :=
| COMPR_NONE        (* 0x00 *)
| COMPR_DEFAULT     (* 0x01 *)
| COMPR_GREEDY      (* 0x02 *)
| COMPR_AGGRESSIVE. (* 0x04 *)

(** What a caller can pass as [compr_method]: a member of the enum, or any
    other Python object (which is identical to no member). *)
Inductive method_arg : Set :=
| Member (m : CompressionMethod)
| OtherObject (tag : Z).

(** [compr_method is CompressionMethod.COMPR_GREEDY] *)
Definition is_COMPR_GREEDY (m : method_arg) : bool :=
  match m with
  | Member COMPR_GREEDY => true
  | _ => false
  end.

(** What a caller passes as [compr_settings]: [None] or a tuple of Python
    integers. *)
Inductive settings_arg : Set :=
| PyNone
| PyTuple (items : list Z).

(** Truth value of [compr_settings] in [if compr_settings:]. *)
Definition truthy (s : settings_arg) : bool :=
  match s with
  | PyNone => false
  | PyTuple [] => false
  | PyTuple (_ :: _) => true
  end.

(** [cdef struct greedy_replay_param], four [uint8_t] fields. *)
Record greedy_replay_param : Set := mk_replay {
  compr_lvl : Z;
  mem_lvl : Z;
  strat : Z;
  filters : Z
}.

(** The local variables of [optimize_greedy_iterate] that live across the
    loops. *)
Record locals : Set := mk_locals {
  best_filesize : Z;
  best_compr_lvl : Z;
  best_compr_mem_lvl : Z;
  best_compr_strat : Z;
  best_filters : Z
}.

(** A C-contiguous [numpy.ndarray] of [uint8] with three dimensions:
    [shape] and the flat buffer. *)
Record ndarray : Set := mk_ndarray {
  shape0 : Z;
  shape1 : Z;
  shape2 : Z;
  data : list byte
}.

(** [&imagedata[i,j,k]]: what can be read from that address on. *)
Definition elem_ptr (a : ndarray) (i j k : Z) : list byte :=
  skipn (Z.to_nat ((i * shape1 a + j) * shape2 a + k)) (data a).

(** The fields of [libpng.png_image] the code sets (the rest is zeroed by
    [memset]). *)
Record png_image : Set := mk_png_image {
  version : Z;
  width : Z;
  height : Z;
  format : Z
}.

(** Constants of [libpng.pxd]. *)
Definition PNG_COLOR_TYPE_RGBA : Z := 6.
Definition PNG_INTERLACE_NONE : Z := 0.
Definition PNG_COMPRESSION_TYPE_DEFAULT : Z := 0.
Definition PNG_FILTER_TYPE_DEFAULT : Z := 0.
Definition PNG_IMAGE_VERSION : Z := 1.
Definition PNG_FORMAT_RGBA : Z := 0x03.
Definition PNG_FILTER_NONE : Z := 0x08.
Definition PNG_ALL_FILTERS : Z := 0xF8.

(** Running OptiPNG with optimization level 2 (-o2 flag) *)
Definition GREEDY_COMPR_LVL_MIN : Z := 9.
Definition GREEDY_COMPR_LVL_MAX : Z := 9.
Definition GREEDY_COMPR_MEM_LVL_MIN : Z := 8.
Definition GREEDY_COMPR_MEM_LVL_MAX : Z := 8.
Definition GREEDY_COMPR_STRAT_MIN : Z := 0.
Definition GREEDY_COMPR_STRAT_MAX : Z := 3.
Definition GREEDY_FILTER_0 : Z := PNG_FILTER_NONE.
Definition GREEDY_FILTER_5 : Z := PNG_ALL_FILTERS.

(* ================================================================== *)
(** ** Streams and buffers of the C library *)

(** A memory stream, by its contents. *)
Definition FILE := list byte.

(** [open_memstream(&buf, &len)]: a new, empty stream. *)
Definition open_memstream : FILE := [].

(** [fseek(fp, 0, SEEK_END); ftell(fp)] *)
Definition ftell_end (fp : FILE) : Z := Z.of_nat (length fp).

(** [bytearray(n)]: [n] zero bytes. *)
Definition bytearray (n : Z) : list byte := repeat Byte.x00 (Z.to_nat n).

(** Writing [src] over the beginning of [dst]. *)
Definition overwrite (dst src : list byte) : list byte :=
  src ++ skipn (length src) dst.

(** [memcpy(dst, src, n)] *)
Definition memcpy (dst src : list byte) (n : Z) : list byte :=
  overwrite dst (firstn (Z.to_nat n) src).

(* ================================================================== *)
(** ** The external libraries *)

(** libpng's write API and libc's [fread], as the code uses them.  The write
    calls return the bytes they send to the stream given to [png_init_io].
    [png_image_write_to_memory] takes the capacity of [memory] ([None] for
    NULL) and returns its result, the new [*memory_bytes] and what it wrote
    to [memory].  [fread] returns the bytes it delivered.

    The record describes calls that libpng completes.  [write_to_file]
    installs no error handler, so where libpng refuses its arguments (a zero
    or oversized dimension, settings zlib rejects) the process is aborted
    inside the call; such a run has no outcome here, and what is proved of
    [write_to_file] is about rasters and settings that libpng accepts. *)
Record Libs : Type := mk_Libs {
  png_struct : Type;
  png_info : Type;
  png_create_write_struct : png_struct;
  png_create_info_struct : png_struct -> png_info;
  png_set_compression_level : png_struct -> Z -> png_struct;
  png_set_compression_mem_level : png_struct -> Z -> png_struct;
  png_set_compression_strategy : png_struct -> Z -> png_struct;
  png_set_filter : png_struct -> Z -> Z -> png_struct;
  png_set_IHDR : png_struct -> png_info -> Z -> Z -> Z -> Z -> Z -> Z -> Z -> png_info;
  png_write_info : png_struct -> png_info -> png_struct * list byte;
  png_write_row : png_struct -> list byte -> png_struct * list byte;
  png_write_end : png_struct -> png_info -> png_struct * list byte;
  png_image_write_to_memory :
    png_image -> option Z -> Z -> Z -> list byte -> Z -> Z * Z * list byte;
  fread : FILE -> Z -> Z -> list byte
}.

(* ================================================================== *)
(** ** Exceptions, trace and the monad of the program *)

(** How a call can end other than by returning.  [OutOfBoundsRead] is not a
    Python exception: the functions are compiled with [boundscheck(False)] and
    [wraparound(False)], so reading a tuple item past its end is unchecked. *)
Inductive exn : Set :=
| MemoryError (msg : string)
| OverflowError
| OutOfBoundsRead.

Inductive outcome (A : Type) : Type :=
| Returns (a : A)
| Raises (e : exn).
Arguments Returns {A} a.
Arguments Raises {A} e.

(** The calls into libpng's encoder. *)
Inductive event : Type :=
| EvWriteToFile (compression_level memory_level compression_strategy
                 filter_flags w h : Z) (written : FILE)
| EvImageWriteToMemory (image : png_image) (memory : option Z)
                       (wresult memory_bytes : Z).

Definition trace := list event.

Definition M (A : Type) : Type := trace -> outcome A * trace.

Definition ret {A} (a : A) : M A := fun t => (Returns a, t).

Definition bind {A B} (c : M A) (k : A -> M B) : M B :=
  fun t =>
    match c t with
    | (Returns a, t') => k a t'
    | (Raises e, t') => (Raises e, t')
    end.

Definition raise {A} (e : exn) : M A := fun t => (Raises e, t).

Definition emit (ev : event) : M unit := fun t => (Returns tt, t ++ [ev]).

Notation "x <- c ;; k" := (bind c (fun x => k))
  (at level 61, c at next level, right associativity).
Notation "' pat <- c ;; k" := (bind c (fun x => match x with pat => k end))
  (at level 61, pat pattern, c at next level, right associativity).

(** [for x in xs: s = body(x, s)] *)
Fixpoint for_each {A S : Type} (xs : list A) (body : A -> S -> M S) (s : S) : M S :=
  match xs with
  | [] => ret s
  | x :: xs' => s' <- body x s ;; for_each xs' body s'
  end.

(** [t[i]] on a tuple, bounds unchecked. *)
Definition getitem (s : settings_arg) (i : nat) : M Z :=
  match s with
  | PyNone => raise OutOfBoundsRead
  | PyTuple items =>
      match nth_error items i with
      | Some v => ret v
      | None => raise OutOfBoundsRead
      end
  end.

(** Conversion of a Python integer to [uint8_t]. *)
Definition as_uint8_t (v : Z) : M Z :=
  if (0 <=? v) && (v <=? 255) then ret v else raise OverflowError.

(* ================================================================== *)
(** ** The program *)

Section Program.

Variable L : Libs.

(** The libpng calls of [write_to_file], in the order of the source; the
    result is the stream after [png_write_end]. *)
Definition write_to_file_stream (imagedata : ndarray) (fp : FILE)
    (compression_level memory_level compression_strategy filter_flags : Z)
    (w h : Z) : FILE :=
  let write_ptr := png_create_write_struct L in
  let write_info_ptr := png_create_info_struct L write_ptr in
  (* Configure write settings *)
  let write_ptr := png_set_compression_level L write_ptr compression_level in
  let write_ptr := png_set_compression_mem_level L write_ptr memory_level in
  let write_ptr := png_set_compression_strategy L write_ptr compression_strategy in
  let write_ptr := png_set_filter L write_ptr PNG_FILTER_TYPE_DEFAULT filter_flags in
  (* png_init_io(write_ptr, fp): from here on the output goes to fp *)
  let write_info_ptr :=
    png_set_IHDR L write_ptr write_info_ptr w h 8
      PNG_COLOR_TYPE_RGBA PNG_INTERLACE_NONE
      PNG_COMPRESSION_TYPE_DEFAULT PNG_FILTER_TYPE_DEFAULT in
  (* Write the data *)
  let '(write_ptr, out) := png_write_info L write_ptr write_info_ptr in
  let fp := fp ++ out in
  let '(write_ptr, fp) :=
    fold_left
      (fun (acc : png_struct L * FILE) (row_idx : Z) =>
         let '(p, f) := acc in
         let '(p', out) := png_write_row L p (elem_ptr imagedata row_idx 0 0) in
         (p', f ++ out))
      (range 0 h) (write_ptr, fp) in
  let '(_, out) := png_write_end L write_ptr write_info_ptr in
  (* png_destroy_write_struct *)
  fp ++ out.

(** [write_to_file]: one parameterized encode into [fp]. *)
Definition write_to_file (imagedata : ndarray) (fp : FILE)
    (compression_level memory_level compression_strategy filter_flags : Z)
    (w h : Z) : M FILE :=
  let fp' := write_to_file_stream imagedata fp compression_level memory_level
               compression_strategy filter_flags w h in
  _ <- emit (EvWriteToFile compression_level memory_level compression_strategy
               filter_flags w h fp') ;;
  ret fp'.

(** One call of [libpng.png_image_write_to_memory]. *)
Definition call_png_image_write_to_memory (image : png_image)
    (memory : option Z) (memory_bytes : Z) (convert_to_8_bit : Z)
    (buffer : list byte) (row_stride : Z) : M (Z * Z * list byte) :=
  let '(wresult, memory_bytes', written) :=
    png_image_write_to_memory L image memory memory_bytes convert_to_8_bit
      buffer row_stride in
  _ <- emit (EvImageWriteToMemory image memory wresult memory_bytes') ;;
  ret (wresult, memory_bytes', written).

(** [optimize_default] *)
Definition optimize_default (imagedata : ndarray) (w h : Z) : M (list byte) :=
  (* Define basic image data *)
  let write_image :=
    {| version := PNG_IMAGE_VERSION;
       width := as_unsigned_int w;      (* png_uint_32 *)
       height := as_unsigned_int h;
       format := PNG_FORMAT_RGBA |} in
  (* Get required byte size *)
  let write_image_size := 0 in
  let rgb_data := elem_ptr imagedata 0 0 0 in
  '(wresult, write_image_size, _) <-
    call_png_image_write_to_memory write_image None write_image_size 0 rgb_data 0 ;;
  if wresult =? 0 then
    raise (MemoryError "Could not allocate memory for PNG conversion.")
  else
  (* Write in buffer; outbuffer = malloc(write_image_size) *)
  '(wresult, write_image_size, outbuffer) <-
    call_png_image_write_to_memory write_image (Some write_image_size)
      write_image_size 0 rgb_data 0 ;;
  if wresult =? 0 then
    raise (MemoryError "Write to buffer failed for PNG conversion.")
  else
  (* Output data *)
  let outdata := bytearray write_image_size in
  let outdata := memcpy outdata outbuffer write_image_size in
  ret outdata.

(** One trial of the innermost loop of [optimize_greedy_iterate]. *)
Definition greedy_trial (imagedata : ndarray) (w h : Z)
    (filter_flags strategy lvl mem : Z) (s : locals) : M locals :=
  (* Create an in-memory stream of a file *)
  let fp := open_memstream in
  (* Write the file to the memory stream *)
  fp <- write_to_file imagedata fp lvl mem strategy filter_flags w h ;;
  (* Check the size of the resulting file *)
  let current_filesize := as_int (ftell_end fp) in
  if current_filesize <? best_filesize s then
    (* Save the settings if we found a better result *)
    ret {| best_compr_lvl := lvl;
           best_compr_mem_lvl := mem;
           best_compr_strat := strategy;
           best_filters := filter_flags;
           best_filesize := current_filesize |}
  else
    ret s.

(** [optimize_greedy_iterate] *)
Definition optimize_greedy_iterate (imagedata : ndarray) (w h : Z)
    : M greedy_replay_param :=
  let s :=
    {| best_filesize := 0x7fffffff;
       best_compr_lvl := 0xFF;
       best_compr_mem_lvl := 0xFF;
       best_compr_strat := 0xFF;
       best_filters := 0xFF |} in
  s <- for_each (range GREEDY_FILTER_0 (GREEDY_FILTER_5 + 1))
    (fun filter_flags s =>
       if negb (filter_flags =? GREEDY_FILTER_0)
          && negb (filter_flags =? GREEDY_FILTER_5)
       then ret s (* continue *)
       else
         for_each (range GREEDY_COMPR_STRAT_MIN (GREEDY_COMPR_STRAT_MAX + 1))
           (fun strategy s =>
              for_each (range GREEDY_COMPR_LVL_MIN (GREEDY_COMPR_LVL_MAX + 1))
                (fun lvl s =>
                   for_each
                     (range GREEDY_COMPR_MEM_LVL_MIN (GREEDY_COMPR_MEM_LVL_MAX + 1))
                     (fun mem s =>
                        greedy_trial imagedata w h filter_flags strategy lvl mem s)
                     s)
                s)
           s)
    s ;;
  ret {| compr_lvl := best_compr_lvl s;
         mem_lvl := best_compr_mem_lvl s;
         strat := best_compr_strat s;
         filters := best_filters s |}.

(** [optimize_greedy] *)
Definition optimize_greedy (imagedata : ndarray) (w h : Z)
    (replay : greedy_replay_param) : M (list byte * greedy_replay_param) :=
  replay <- (if compr_lvl replay =? 0xFF
             then optimize_greedy_iterate imagedata w h
             else ret replay) ;;
  (* Create an in-memory stream of a file *)
  let fp := open_memstream in
  fp <- write_to_file imagedata fp
          (compr_lvl replay) (mem_lvl replay) (strat replay) (filters replay)
          w h ;;
  (* Copy file data to bytearray *)
  let filesize := ftell_end fp in
  let outdata := bytearray filesize in
  let delivered := fread L fp 1 filesize in
  let outdata := overwrite outdata delivered in
  let wresult := Z.of_nat (length delivered) in
  if negb (wresult =? filesize) then
    raise (MemoryError "Copy to bytearray failed for PNG conversion.")
  else
    ret (outdata, replay).

(** [save] *)
Definition save (imagedata : ndarray) (compr_method : method_arg)
    (compr_settings : settings_arg)
    : M (list byte * option (Z * Z * Z * Z)) :=
  let w := as_unsigned_int (shape1 imagedata) in
  let h := as_unsigned_int (shape0 imagedata) in
  if is_COMPR_GREEDY compr_method then
    replay <-
      (if truthy compr_settings then
         v0 <- getitem compr_settings 0 ;; c <- as_uint8_t v0 ;;
         v1 <- getitem compr_settings 1 ;; m <- as_uint8_t v1 ;;
         v2 <- getitem compr_settings 2 ;; s <- as_uint8_t v2 ;;
         v3 <- getitem compr_settings 3 ;; f <- as_uint8_t v3 ;;
         ret {| compr_lvl := c; mem_lvl := m; strat := s; filters := f |}
       else
         (* Assign invalid values. This will trigger the optimization loop. *)
         ret {| compr_lvl := 0xFF; mem_lvl := 0xFF; strat := 0xFF;
                filters := 0xFF |}) ;;
    '(outdata, used_settings) <-
      optimize_greedy imagedata (as_int w) (as_int h) replay ;;
    let best_settings :=
      (compr_lvl used_settings, mem_lvl used_settings,
       strat used_settings, filters used_settings) in
    ret (outdata, Some best_settings)
  else
    outdata <- optimize_default imagedata (as_int w) (as_int h) ;;
    ret (outdata, None).

End Program.

Arguments write_to_file_stream L imagedata fp compression_level memory_level
  compression_strategy filter_flags w h : simpl never.

(* ================================================================== *)
(** ** What the program computes, in closed form *)

Section Closed_forms.

Variable L : Libs.
Variable imagedata : ndarray.
Variables w h : Z.

(** The stream one parameterized encode with [r] leaves in a new memory
    stream. *)
Definition encode_stream (r : greedy_replay_param) : FILE :=
  write_to_file_stream L imagedata open_memstream
    (compr_lvl r) (mem_lvl r) (strat r) (filters r) w h.

(** The event that encode leaves in the trace. *)
Definition encode_event (r : greedy_replay_param) : event :=
  EvWriteToFile (compr_lvl r) (mem_lvl r) (strat r) (filters r) w h
    (encode_stream r).

(** The size of that stream, as [ftell] reports it. *)
Definition trial_size (r : greedy_replay_param) : Z :=
  ftell_end (encode_stream r).

(** That size as the [int] [current_filesize] holds it. *)
Definition stored_size (r : greedy_replay_param) : Z :=
  as_int (trial_size r).

(** The comparison at the end of a trial. *)
Definition pick (s : locals) (r : greedy_replay_param) : locals :=
  if stored_size r <? best_filesize s then
    {| best_filesize := stored_size r;
       best_compr_lvl := compr_lvl r;
       best_compr_mem_lvl := mem_lvl r;
       best_compr_strat := strat r;
       best_filters := filters r |}
  else s.

Definition initial_locals : locals :=
  {| best_filesize := 0x7fffffff;
     best_compr_lvl := 0xFF;
     best_compr_mem_lvl := 0xFF;
     best_compr_strat := 0xFF;
     best_filters := 0xFF |}.

Definition best_of (s : locals) : greedy_replay_param :=
  {| compr_lvl := best_compr_lvl s;
     mem_lvl := best_compr_mem_lvl s;
     strat := best_compr_strat s;
     filters := best_filters s |}.

(** The copy of the final stream into the bytearray, with its check. *)
Definition copy_out (fp : FILE) : outcome (list byte) :=
  let delivered := fread L fp 1 (ftell_end fp) in
  if negb (Z.of_nat (length delivered) =? ftell_end fp) then
    Raises (MemoryError "Copy to bytearray failed for PNG conversion.")
  else
    Returns (overwrite (bytearray (ftell_end fp)) delivered).

(** [fread] delivers the whole stream. *)
Definition fread_complete (fp : FILE) : Prop :=
  fread L fp 1 (ftell_end fp) = fp.

End Closed_forms.

(** The candidates of the search, in the order of the loops:
    (compression level, memory level, strategy, filter). *)
Definition candidates : list greedy_replay_param :=
  [ mk_replay 9 8 0 0x08; mk_replay 9 8 1 0x08;
    mk_replay 9 8 2 0x08; mk_replay 9 8 3 0x08;
    mk_replay 9 8 0 0xF8; mk_replay 9 8 1 0xF8;
    mk_replay 9 8 2 0xF8; mk_replay 9 8 3 0xF8 ].

(** The locals after the trials of [cs], from [s]. *)
Definition search_fold (L : Libs) (imagedata : ndarray) (w h : Z)
    (cs : list greedy_replay_param) (s : locals) : locals :=
  fold_left (pick L imagedata w h) cs s.

(** What [optimize_greedy_iterate] returns. *)
Definition winner (L : Libs) (imagedata : ndarray) (w h : Z) : greedy_replay_param :=
  best_of (search_fold L imagedata w h candidates initial_locals).

(** The tuple [save] builds from the struct. *)
Definition settings_tuple (r : greedy_replay_param) : Z * Z * Z * Z :=
  (compr_lvl r, mem_lvl r, strat r, filters r).

(** The [width] and [height] that [save] hands on: [shape] through
    [unsigned int] and then [int]. *)
Definition width_of (a : ndarray) : Z := as_int (as_unsigned_int (shape1 a)).
Definition height_of (a : ndarray) : Z := as_int (as_unsigned_int (shape0 a)).

(** The parameters of the final encode of [save] on the greedy path, when the
    conversion of [compr_settings] to the struct succeeds. *)
Definition is_uint8 (v : Z) : bool := (0 <=? v) && (v <=? 255).

Definition final_params (L : Libs) (imagedata : ndarray)
    (compr_settings : settings_arg) : option greedy_replay_param :=
  let searched := winner L imagedata (width_of imagedata) (height_of imagedata) in
  match compr_settings with
  | PyNone | PyTuple [] => Some searched
  | PyTuple (c :: m :: s :: f :: _) =>
      if is_uint8 c && is_uint8 m && is_uint8 s && is_uint8 f then
        Some (if c =? 0xFF then searched else mk_replay c m s f)
      else None
  | PyTuple _ => None
  end.

(** Whether the search runs for these settings. *)
Definition searches (compr_settings : settings_arg) : bool :=
  match compr_settings with
  | PyTuple (c :: _) => c =? 0xFF
  | _ => true
  end.

(** The [png_image] that [optimize_default] fills in. *)
Definition default_image (imagedata : ndarray) : png_image :=
  {| version := PNG_IMAGE_VERSION;
     width := as_unsigned_int (width_of imagedata);
     height := as_unsigned_int (height_of imagedata);
     format := PNG_FORMAT_RGBA |}.

(** The two calls of [optimize_default]: the one that asks for the size
    (memory is NULL) and the one that writes. *)
Definition sizing_call (L : Libs) (imagedata : ndarray) : Z * Z * list byte :=
  png_image_write_to_memory L (default_image imagedata) None 0 0
    (elem_ptr imagedata 0 0 0) 0.

Definition write_call (L : Libs) (imagedata : ndarray) : Z * Z * list byte :=
  let '(_, n, _) := sizing_call L imagedata in
  png_image_write_to_memory L (default_image imagedata) (Some n) n 0
    (elem_ptr imagedata 0 0 0) 0.

Definition wresult_of (r : Z * Z * list byte) : Z := fst (fst r).
Definition memory_bytes_of (r : Z * Z * list byte) : Z := snd (fst r).
Definition written_of (r : Z * Z * list byte) : list byte := snd r.

Definition sizing_event (L : Libs) (imagedata : ndarray) : event :=
  EvImageWriteToMemory (default_image imagedata) None
    (wresult_of (sizing_call L imagedata))
    (memory_bytes_of (sizing_call L imagedata)).

Definition write_event (L : Libs) (imagedata : ndarray) : event :=
  EvImageWriteToMemory (default_image imagedata)
    (Some (memory_bytes_of (sizing_call L imagedata)))
    (wresult_of (write_call L imagedata))
    (memory_bytes_of (write_call L imagedata)).

(** The bytes [optimize_default] returns when both calls succeed. *)
Definition default_bytes (L : Libs) (imagedata : ndarray) : list byte :=
  let n := memory_bytes_of (write_call L imagedata) in
  memcpy (bytearray n) (written_of (write_call L imagedata)) n.

(* ================================================================== *)
(** ** Predicates of the specification *)

(** [r] is the first candidate, in the order of the loops, whose encoded size
    is the least of all candidates. *)
Definition first_minimal (L : Libs) (imagedata : ndarray) (w h : Z)
    (r : greedy_replay_param) : Prop :=
  exists i : nat,
    nth_error candidates i = Some r /\
    (forall c, In c candidates ->
       trial_size L imagedata w h r <= trial_size L imagedata w h c) /\
    (forall j c, (j < i)%nat -> nth_error candidates j = Some c ->
       trial_size L imagedata w h r < trial_size L imagedata w h c).

(** Every trial of the search produces fewer than [0x7fffffff] bytes. *)
Definition trials_below_int_max (L : Libs) (imagedata : ndarray) (w h : Z) : Prop :=
  forall c, In c candidates -> trial_size L imagedata w h c < 0x7fffffff.

(** A raster that is not a width x height x 4 buffer with positive sides. *)
Definition invalid_raster (a : ndarray) : Prop :=
  shape0 a = 0 \/ shape1 a = 0 \/
  Z.of_nat (length (data a)) <> shape1 a * shape0 a * 4.

(** A run from trace [t] that ends in an exception with no call into the
    encoder. *)
Definition rejected_before_codec {A : Type} (t : trace) (r : outcome A * trace) : Prop :=
  (exists e, fst r = Raises e) /\ snd r = t.


(** The failures the encoder can report to the program. *)
Inductive codec_failure (L : Libs) (imagedata : ndarray)
    : method_arg -> settings_arg -> Prop :=
| sizing_failed : forall m s,
    is_COMPR_GREEDY m = false ->
    wresult_of (sizing_call L imagedata) = 0 ->
    codec_failure L imagedata m s
| write_failed : forall m s,
    is_COMPR_GREEDY m = false ->
    wresult_of (sizing_call L imagedata) <> 0 ->
    wresult_of (write_call L imagedata) = 0 ->
    codec_failure L imagedata m s
| copy_incomplete : forall m s r,
    is_COMPR_GREEDY m = true ->
    final_params L imagedata s = Some r ->
    let fp := encode_stream L imagedata (width_of imagedata) (height_of imagedata) r in
    Z.of_nat (length (fread L fp 1 (ftell_end fp))) <> ftell_end fp ->
    codec_failure L imagedata m s.

(* ================================================================== *)
(** ** Concrete encoders and rasters, for the examples *)

Module Examples.

(** The state of a small stand-in for libpng's write struct. *)
Record toy_struct : Set := mk_toy {
  t_level : Z;
  t_mem_level : Z;
  t_strategy : Z;
  t_filters : Z;
  t_rowbytes : Z
}.

Definition signature : list byte := [Byte.x89; Byte.x50; Byte.x4e; Byte.x47].

(** An encoder that stores the rows as they are between a signature and a
    trailer that depends on the four settings. *)
Definition toy_libs
    (trailer : Z -> Z -> Z -> Z -> list byte)
    (image_write : png_image -> option Z -> Z -> Z -> list byte -> Z
                   -> Z * Z * list byte)
    (fread_impl : FILE -> Z -> Z -> list byte) : Libs :=
  {| png_struct := toy_struct;
     png_info := Z * Z;
     png_create_write_struct := mk_toy 6 8 0 0 0;
     png_create_info_struct := fun _ => (0, 0);
     png_set_compression_level := fun p v =>
       mk_toy v (t_mem_level p) (t_strategy p) (t_filters p) (t_rowbytes p);
     png_set_compression_mem_level := fun p v =>
       mk_toy (t_level p) v (t_strategy p) (t_filters p) (t_rowbytes p);
     png_set_compression_strategy := fun p v =>
       mk_toy (t_level p) (t_mem_level p) v (t_filters p) (t_rowbytes p);
     png_set_filter := fun p _ v =>
       mk_toy (t_level p) (t_mem_level p) (t_strategy p) v (t_rowbytes p);
     png_set_IHDR := fun _ _ w h _ _ _ _ _ => (w, h);
     png_write_info := fun p i =>
       (mk_toy (t_level p) (t_mem_level p) (t_strategy p) (t_filters p)
          (4 * fst i), signature);
     png_write_row := fun p row => (p, firstn (Z.to_nat (t_rowbytes p)) row);
     png_write_end := fun p _ =>
       (p, trailer (t_level p) (t_mem_level p) (t_strategy p) (t_filters p));
     png_image_write_to_memory := image_write;
     fread := fread_impl |}.

(** [fread] as the C library does it on a memory stream. *)
Definition libc_fread (fp : FILE) (size nmemb : Z) : list byte :=
  firstn (Z.to_nat (size * nmemb)) fp.

(** An [fread] that stops one byte short. *)
Definition short_fread (fp : FILE) (size nmemb : Z) : list byte :=
  firstn (Z.to_nat (size * nmemb) - 1) fp.

(** [png_image_write_to_memory] storing the pixels after the signature. *)
Definition stored_image_write (image : png_image) (memory : option Z)
    (memory_bytes convert_to_8_bit : Z) (buffer : list byte) (row_stride : Z)
    : Z * Z * list byte :=
  let out := signature ++ firstn (Z.to_nat (width image * height image * 4)) buffer in
  match memory with
  | None => (1, Z.of_nat (length out), [])
  | Some _ => (1, Z.of_nat (length out), out)
  end.

(** One that cannot size its output. *)
Definition unsizable_image_write (image : png_image) (memory : option Z)
    (memory_bytes convert_to_8_bit : Z) (buffer : list byte) (row_stride : Z)
    : Z * Z * list byte := (0, 0, []).

(** One that sizes its output and then fails to write it. *)
Definition unwritable_image_write (image : png_image) (memory : option Z)
    (memory_bytes convert_to_8_bit : Z) (buffer : list byte) (row_stride : Z)
    : Z * Z * list byte :=
  match memory with
  | None => (1, 8, [])
  | Some _ => (0, 8, [])
  end.

(** A trailer whose length depends on strategy and filter. *)
Definition demo_trailer (level mem_level strategy filter_flags : Z) : list byte :=
  repeat Byte.x00
    (Z.to_nat
       ((match strategy with 0 => 5 | 1 => 3 | 2 => 3 | _ => 4 end)
        + (if filter_flags =? PNG_FILTER_NONE then 1 else 0))).

Definition demo_libs : Libs := toy_libs demo_trailer stored_image_write libc_fread.

(** The same streams, with another [png_image_write_to_memory] or [fread]. *)
Definition unsizable_libs : Libs := toy_libs demo_trailer unsizable_image_write libc_fread.
Definition unwritable_libs : Libs := toy_libs demo_trailer unwritable_image_write libc_fread.
Definition short_read_libs : Libs := toy_libs demo_trailer stored_image_write short_fread.

(** A red pixel and an RGB pixel. *)
Definition pixel : ndarray :=
  mk_ndarray 1 1 4 [Byte.xff; Byte.x00; Byte.x00; Byte.xff].
Definition rgb_pixel : ndarray :=
  mk_ndarray 1 1 3 [Byte.xff; Byte.x00; Byte.x00].

(** An encoder whose output for a one-pixel raster has [2^31] bytes with
    strategy 0 and no filter, and 8 bytes with every other setting. *)
Definition wrap_count : nat := Z.to_nat (2 ^ 31 - 8).
Definition wrap_trailer (level mem_level strategy filter_flags : Z) : list byte :=
  if (strategy =? 0) && (filter_flags =? PNG_FILTER_NONE)
  then repeat Byte.x00 wrap_count
  else [].
Definition wrap_libs : Libs := toy_libs wrap_trailer stored_image_write libc_fread.

(** An encoder for which the four settings make no difference. *)
Definition flat_trailer (level mem_level strategy filter_flags : Z) : list byte :=
  [Byte.x00].
Definition flat_libs : Libs := toy_libs flat_trailer stored_image_write libc_fread.

(** Two rows of two RGBA pixels. *)
Definition two_by_two : ndarray :=
  mk_ndarray 2 2 4
    [Byte.x01; Byte.x02; Byte.x03; Byte.x04; Byte.x05; Byte.x06; Byte.x07; Byte.x08;
     Byte.x09; Byte.x0a; Byte.x0b; Byte.x0c; Byte.x0d; Byte.x0e; Byte.x0f; Byte.x10].

(** Two rows of two RGB pixels. *)
Definition two_by_two_rgb : ndarray :=
  mk_ndarray 2 2 3
    [Byte.x01; Byte.x02; Byte.x03; Byte.x05; Byte.x06; Byte.x07;
     Byte.x09; Byte.x0a; Byte.x0b; Byte.x0d; Byte.x0e; Byte.x0f].

End Examples.

(* ================================================================== *)
(** ** Rows, sentinel and kinds of calls *)

(** The row pointers [write_to_file] hands to [png_write_row], in order:
    [&imagedata[row_idx,0,0]] for [row_idx] in [range(height)]. *)
Definition rows_passed (imagedata : ndarray) (h : Z) : list (list byte) :=
  map (fun row_idx => elem_ptr imagedata row_idx 0 0) (range 0 h).

(** Feeding rows to [png_write_row], the output collected in the stream. *)
Definition feed_rows (L : Libs) (rows : list (list byte))
    (acc : png_struct L * FILE) : png_struct L * FILE :=
  fold_left
    (fun (acc : png_struct L * FILE) (row : list byte) =>
       let '(p, f) := acc in
       let '(p', out) := png_write_row L p row in
       (p', f ++ out))
    rows acc.

(** The write struct as [write_to_file] has configured it when it starts to
    write, and the info struct after [png_set_IHDR]. *)
Definition configured_struct (L : Libs) (c m s f : Z) : png_struct L :=
  png_set_filter L
    (png_set_compression_strategy L
       (png_set_compression_mem_level L
          (png_set_compression_level L (png_create_write_struct L) c) m) s)
    PNG_FILTER_TYPE_DEFAULT f.

Definition configured_info (L : Libs) (c m s f w h : Z) : png_info L :=
  png_set_IHDR L (configured_struct L c m s f)
    (png_create_info_struct L (png_create_write_struct L)) w h 8
    PNG_COLOR_TYPE_RGBA PNG_INTERLACE_NONE
    PNG_COMPRESSION_TYPE_DEFAULT PNG_FILTER_TYPE_DEFAULT.

(** The tuple of 0xFF with which the search starts. *)
Definition unset_params : greedy_replay_param := mk_replay 0xFF 0xFF 0xFF 0xFF.

(** [r] is the first candidate, in the order of the loops, whose size as
    stored in the [int] is the least of all candidates. *)
Definition first_minimal_stored (L : Libs) (imagedata : ndarray) (w h : Z)
    (r : greedy_replay_param) : Prop :=
  exists i : nat,
    nth_error candidates i = Some r /\
    (forall c, In c candidates ->
       stored_size L imagedata w h r <= stored_size L imagedata w h c) /\
    (forall j c, (j < i)%nat -> nth_error candidates j = Some c ->
       stored_size L imagedata w h r < stored_size L imagedata w h c).

(** The two kinds of calls into the encoder. *)
Definition is_write_to_file (e : event) : Prop :=
  match e with
  | EvWriteToFile _ _ _ _ _ _ _ => True
  | EvImageWriteToMemory _ _ _ _ => False
  end.

Definition is_image_write_to_memory (e : event) : Prop :=
  match e with
  | EvWriteToFile _ _ _ _ _ _ _ => False
  | EvImageWriteToMemory _ _ _ _ => True
  end.

(** A C-contiguous array: the buffer holds shape[0]*shape[1]*shape[2]
    bytes and no side is negative. *)
Definition contiguous (a : ndarray) : Prop :=
  0 <= shape0 a /\ 0 <= shape1 a /\ 0 <= shape2 a /\
  Z.of_nat (length (data a)) = shape0 a * shape1 a * shape2 a.

(* ================================================================== *)
(** ** Running the pieces *)

Lemma write_to_file_run L img fp c m s f w h t :
  write_to_file L img fp c m s f w h t =
  (Returns (write_to_file_stream L img fp c m s f w h),
   t ++ [EvWriteToFile c m s f w h (write_to_file_stream L img fp c m s f w h)]).
Proof. reflexivity. Qed.

Lemma greedy_trial_run L img w h f sg l m s t :
  greedy_trial L img w h f sg l m s t =
  (Returns (pick L img w h s (mk_replay l m sg f)),
   t ++ [encode_event L img w h (mk_replay l m sg f)]).
Proof.
  unfold greedy_trial, bind. rewrite write_to_file_run.
  unfold pick, stored_size, trial_size, encode_stream, encode_event, encode_stream;
    cbn [compr_lvl mem_lvl strat filters].
  destruct (_ <? _); reflexivity.
Qed.

Lemma optimize_greedy_iterate_run L img w h t :
  optimize_greedy_iterate L img w h t =
  (Returns (winner L img w h),
   t ++ map (encode_event L img w h) candidates).
Proof.
  unfold optimize_greedy_iterate.
  repeat match goal with
         | |- context [range ?a ?b] =>
             let r := eval vm_compute in (range a b) in
             change (range a b) with r
         end.
  cbn -[greedy_trial].
  unfold bind.
  repeat (rewrite greedy_trial_run; cbn -[greedy_trial pick encode_event]).
  repeat rewrite <- app_assoc.
  reflexivity.
Qed.

Lemma optimize_greedy_run L img w h r t :
  optimize_greedy L img w h r t =
  let r' := if compr_lvl r =? 0xFF then winner L img w h else r in
  (match copy_out L (encode_stream L img w h r') with
   | Returns out => Returns (out, r')
   | Raises e => Raises e
   end,
   t ++ (if compr_lvl r =? 0xFF then map (encode_event L img w h) candidates
         else [])
     ++ [encode_event L img w h r']).
Proof.
  unfold optimize_greedy, bind.
  destruct (compr_lvl r =? 0xFF).
  - rewrite optimize_greedy_iterate_run, write_to_file_run.
    cbv zeta. unfold copy_out, encode_event, encode_stream.
    rewrite <- app_assoc.
    destruct (negb _); reflexivity.
  - unfold ret at 1. rewrite write_to_file_run.
    cbv zeta. unfold copy_out, encode_event, encode_stream.
    destruct (negb _); reflexivity.
Qed.

Lemma as_uint8_t_run v t :
  as_uint8_t v t = if is_uint8 v then (Returns v, t) else (Raises OverflowError, t).
Proof. unfold as_uint8_t, is_uint8. destruct (_ && _); reflexivity. Qed.

Lemma save_greedy_run L img s r t :
  final_params L img s = Some r ->
  save L img (Member COMPR_GREEDY) s t =
  (match copy_out L (encode_stream L img (width_of img) (height_of img) r) with
   | Returns out => Returns (out, Some (settings_tuple r))
   | Raises e => Raises e
   end,
   t ++ (if searches s
         then map (encode_event L img (width_of img) (height_of img)) candidates
         else [])
     ++ [encode_event L img (width_of img) (height_of img) r]).
Proof.
  intros Hr. unfold save. cbn [is_COMPR_GREEDY].
  fold (width_of img) (height_of img).
  destruct s as [|items].
  - cbn in Hr. injection Hr as <-.
    cbn [truthy searches]. unfold bind at 1. unfold ret at 1.
    unfold bind. rewrite optimize_greedy_run. cbn.
    destruct (copy_out _ _); reflexivity.
  - destruct items as [|c items].
    { cbn in Hr. injection Hr as <-.
      cbn [truthy searches]. unfold bind at 1. unfold ret at 1.
      unfold bind. rewrite optimize_greedy_run. cbn.
      destruct (copy_out _ _); reflexivity. }
    destruct items as [|m items]; [discriminate|].
    destruct items as [|sg items]; [discriminate|].
    destruct items as [|f items]; [discriminate|].
    cbn [final_params] in Hr.
    cbn [truthy searches getitem nth_error].
    unfold bind, ret.
    rewrite as_uint8_t_run; destruct (is_uint8 c); [|discriminate]; cbv beta iota.
    rewrite as_uint8_t_run; destruct (is_uint8 m); [|discriminate]; cbv beta iota.
    rewrite as_uint8_t_run; destruct (is_uint8 sg); [|discriminate]; cbv beta iota.
    rewrite as_uint8_t_run; destruct (is_uint8 f); [|discriminate]; cbv beta iota.
    cbn [andb] in Hr. injection Hr as <-.
    rewrite optimize_greedy_run. cbn [compr_lvl].
    destruct (c =? 255); cbn zeta;
      destruct (copy_out _ _); reflexivity.
Qed.

Lemma optimize_default_run L img t :
  optimize_default L img (width_of img) (height_of img) t =
  if wresult_of (sizing_call L img) =? 0 then
    (Raises (MemoryError "Could not allocate memory for PNG conversion."),
     t ++ [sizing_event L img])
  else if wresult_of (write_call L img) =? 0 then
    (Raises (MemoryError "Write to buffer failed for PNG conversion."),
     t ++ [sizing_event L img; write_event L img])
  else
    (Returns (default_bytes L img),
     t ++ [sizing_event L img; write_event L img]).
Proof.
  unfold optimize_default, call_png_image_write_to_memory, bind, emit, ret, raise.
  unfold default_bytes, sizing_event, write_event, write_call.
  fold (default_image img).
  change (png_image_write_to_memory L (default_image img) None 0 0
            (elem_ptr img 0 0 0) 0) with (sizing_call L img).
  destruct (sizing_call L img) as [[r1 n1] o1]. cbn [wresult_of memory_bytes_of fst snd].
  destruct (r1 =? 0); [reflexivity|].
  destruct (png_image_write_to_memory L (default_image img) (Some n1) n1 0
              (elem_ptr img 0 0 0) 0) as [[r2 n2] o2].
  cbn [wresult_of memory_bytes_of written_of fst snd].
  rewrite <- app_assoc.
  destruct (r2 =? 0); reflexivity.
Qed.

Lemma save_default_run L img m s t :
  is_COMPR_GREEDY m = false ->
  save L img m s t =
  if wresult_of (sizing_call L img) =? 0 then
    (Raises (MemoryError "Could not allocate memory for PNG conversion."),
     t ++ [sizing_event L img])
  else if wresult_of (write_call L img) =? 0 then
    (Raises (MemoryError "Write to buffer failed for PNG conversion."),
     t ++ [sizing_event L img; write_event L img])
  else
    (Returns (default_bytes L img, None),
     t ++ [sizing_event L img; write_event L img]).
Proof.
  intros Hm. unfold save. rewrite Hm.
  fold (width_of img) (height_of img).
  unfold bind. rewrite optimize_default_run.
  destruct (_ =? 0); [reflexivity|].
  destruct (_ =? 0); reflexivity.
Qed.

(* ================================================================== *)
(** ** Sizes and the [int] they are stored in *)

Lemma as_int_small z : - 2 ^ 31 <= z < 2 ^ 31 -> as_int z = z.
Proof.
  intros Hz. unfold as_int. rewrite Z.mod_small; lia.
Qed.

Lemma as_int_range z : - 2 ^ 31 <= as_int z < 2 ^ 31.
Proof.
  unfold as_int.
  pose proof (Z.mod_pos_bound (z + 2 ^ 31) (2 ^ 32) ltac:(lia)). lia.
Qed.

Lemma trial_size_nonneg L img w h r : 0 <= trial_size L img w h r.
Proof. unfold trial_size, ftell_end. lia. Qed.

Lemma best_of_pick_eta r n :
  best_of {| best_filesize := n;
             best_compr_lvl := compr_lvl r;
             best_compr_mem_lvl := mem_lvl r;
             best_compr_strat := strat r;
             best_filters := filters r |} = r.
Proof. destruct r; reflexivity. Qed.

(* ================================================================== *)
(** ** The search keeps the first least size *)

Section Search.

Variable L : Libs.
Variable img : ndarray.
Variables w h : Z.


Lemma search_fold_snoc cs x s :
  search_fold L img w h (cs ++ [x]) s =
  pick L img w h (search_fold L img w h cs s) x.
Proof. unfold search_fold. rewrite fold_left_app. reflexivity. Qed.

Lemma pick_cases s x :
  (stored_size L img w h x < best_filesize s /\
   best_of (pick L img w h s x) = x /\
   best_filesize (pick L img w h s x) = stored_size L img w h x) \/
  (best_filesize s <= stored_size L img w h x /\ pick L img w h s x = s).
Proof.
  unfold pick.
  destruct (stored_size L img w h x <? best_filesize s) eqn:E.
  - left. apply Z.ltb_lt in E. cbn [best_filesize].
    rewrite best_of_pick_eta. auto.
  - right. apply Z.ltb_ge in E. auto.
Qed.

Lemma search_fold_first_least cs :
  cs <> [] ->
  (forall c, In c cs -> stored_size L img w h c < best_filesize initial_locals) ->
  let s := search_fold L img w h cs initial_locals in
  exists i : nat,
    nth_error cs i = Some (best_of s) /\
    best_filesize s = stored_size L img w h (best_of s) /\
    (forall c, In c cs -> best_filesize s <= stored_size L img w h c) /\
    (forall j c, (j < i)%nat -> nth_error cs j = Some c -> best_filesize s < stored_size L img w h c).
Proof.
  induction cs as [|x pre IH] using rev_ind; [congruence|].
  intros _ Hlt. cbv zeta. rewrite search_fold_snoc.
  destruct pre as [|p pre'].
  - (* the first trial *)
    cbn [search_fold fold_left app].
    destruct (pick_cases initial_locals x) as [(_ & Hb & Hf)|(Hge & _)].
    + exists 0%nat. rewrite Hb, Hf. repeat split.
      * intros c [<-|[]]. lia.
      * intros j c Hj. lia.
    + specialize (Hlt x (or_introl eq_refl)). lia.
  - set (pre := p :: pre') in *.
    destruct IH as (i & Hi & Hbest & Hall & Hbefore).
    { discriminate. }
    { intros c Hc. apply Hlt, in_or_app. auto. }
    set (s := search_fold L img w h pre initial_locals) in *.
    assert (Hilen : (i < length pre)%nat).
    { apply nth_error_Some. congruence. }
    destruct (pick_cases s x) as [(Hlt' & Hb & Hf)|(Hge & Hkeep)].
    + (* a strictly smaller size replaces the best *)
      exists (length pre). rewrite Hb, Hf. repeat split.
      * rewrite nth_error_app2, Nat.sub_diag by lia. reflexivity.
      * intros c Hc. apply in_app_or in Hc as [Hc|[<-|[]]]; [|lia].
        specialize (Hall c Hc). lia.
      * intros j c Hj Hnth. rewrite nth_error_app1 in Hnth by lia.
        apply nth_error_In in Hnth. specialize (Hall c Hnth). lia.
    + (* an equal or larger size does not *)
      exists i. rewrite Hkeep. repeat split.
      * rewrite nth_error_app1 by lia. exact Hi.
      * exact Hbest.
      * intros c Hc. apply in_app_or in Hc as [Hc|[<-|[]]]; [auto|lia].
      * intros j c Hj Hnth. rewrite nth_error_app1 in Hnth by lia. eauto.
Qed.

End Search.

(** C1. For every raster the search runs exactly eight trial encodes, in
    the order of the loops: filter 0x08 then 0xF8, and under each the
    strategies 0, 1, 2, 3, always with compression level 9 and memory level 8.
    [save] with COMPR_GREEDY and no settings runs these eight trials and then
    encodes once more with the winner to produce its output. *)
Theorem greedy_search_runs_eight_trials :
  forall (L : Libs) (img : ndarray) (t : trace),
    let w := width_of img in
    let h := height_of img in
    snd (optimize_greedy_iterate L img w h t) =
      t ++ [ encode_event L img w h (mk_replay 9 8 0 0x08);
             encode_event L img w h (mk_replay 9 8 1 0x08);
             encode_event L img w h (mk_replay 9 8 2 0x08);
             encode_event L img w h (mk_replay 9 8 3 0x08);
             encode_event L img w h (mk_replay 9 8 0 0xF8);
             encode_event L img w h (mk_replay 9 8 1 0xF8);
             encode_event L img w h (mk_replay 9 8 2 0xF8);
             encode_event L img w h (mk_replay 9 8 3 0xF8) ] /\
    snd (save L img (Member COMPR_GREEDY) PyNone t) =
      snd (optimize_greedy_iterate L img w h t)
      ++ [encode_event L img w h (winner L img w h)].
Proof.
  intros L img t w h. rewrite optimize_greedy_iterate_run.
  split; [reflexivity|].
  rewrite (save_greedy_run L img PyNone _ t eq_refl).
  cbn [snd searches]. rewrite app_assoc. reflexivity.
Qed.

(** Below the range of the [int].  For every raster whose trial encodes all
    have fewer than 0x7fffffff bytes, the search returns the first candidate,
    in the order of the loops, whose encoded size is the least of the eight:
    a trial replaces the best only when its size is strictly smaller, and the
    first trial replaces the initial 0x7fffffff. *)
Theorem greedy_search_returns_first_minimal :
  forall (L : Libs) (img : ndarray) (w h : Z) (t : trace),
    trials_below_int_max L img w h ->
    exists r,
      fst (optimize_greedy_iterate L img w h t) = Returns r /\
      first_minimal L img w h r.
Proof.
  intros L img w h t Hbound.
  exists (winner L img w h). rewrite optimize_greedy_iterate_run.
  split; [reflexivity|].
  assert (Hsz : forall c, In c candidates ->
              stored_size L img w h c = trial_size L img w h c).
  { intros c Hc. apply as_int_small.
    pose proof (trial_size_nonneg L img w h c). specialize (Hbound c Hc).
    change (2 ^ 31) with 2147483648. lia. }
  destruct (search_fold_first_least L img w h candidates) as (i & Hi & Hb & Hall & Hbef).
  { discriminate. }
  { intros c Hc. rewrite (Hsz c Hc). exact (Hbound c Hc). }
  fold (winner L img w h) in Hi, Hb.
  assert (Hw : In (winner L img w h) candidates) by (eapply nth_error_In; eauto).
  rewrite Hb, (Hsz _ Hw) in Hall, Hbef.
  exists i. split; [exact Hi|]. split.
  - intros c Hc. rewrite <- (Hsz c Hc). auto.
  - intros j c Hj Hnth. rewrite <- (Hsz c (nth_error_In _ _ Hnth)). eauto.
Qed.

Lemma demo_trials_below_int_max :
  trials_below_int_max Examples.demo_libs Examples.pixel 1 1.
Proof.
  intros c Hc.
  repeat (destruct Hc as [<-|Hc]; [vm_compute; reflexivity|]).
  destruct Hc.
Defined.

Lemma greedy_search_returns_first_minimal_witness :
  trials_below_int_max Examples.demo_libs Examples.pixel 1 1 /\
  exists r,
    fst (optimize_greedy_iterate Examples.demo_libs Examples.pixel 1 1 []) = Returns r /\
    first_minimal Examples.demo_libs Examples.pixel 1 1 r.
Proof.
  split.
  - exact demo_trials_below_int_max.
  - exact (greedy_search_returns_first_minimal Examples.demo_libs Examples.pixel
             1 1 [] demo_trials_below_int_max).
Defined.


(* ================================================================== *)
(** ** The copy of the final stream *)

Lemma overwrite_same_length dst src :
  length dst = length src -> overwrite dst src = src.
Proof.
  intros Hlen. unfold overwrite.
  rewrite skipn_all2 by lia. apply app_nil_r.
Qed.

Lemma copy_out_complete L fp : fread_complete L fp -> copy_out L fp = Returns fp.
Proof.
  unfold fread_complete, copy_out. intros ->.
  unfold ftell_end. rewrite Z.eqb_refl. cbn [negb].
  rewrite overwrite_same_length; [reflexivity|].
  unfold bytearray. rewrite repeat_length. apply Nat2Z.id.
Qed.

Lemma copy_out_incomplete L fp :
  Z.of_nat (length (fread L fp 1 (ftell_end fp))) <> ftell_end fp ->
  copy_out L fp =
  Raises (MemoryError "Copy to bytearray failed for PNG conversion.").
Proof.
  intros Hne. unfold copy_out.
  apply Z.eqb_neq in Hne. rewrite Hne. reflexivity.
Qed.

Lemma encode_event_inj L img w h r c m s f w' h' out :
  encode_event L img w h r = EvWriteToFile c m s f w' h' out ->
  r = mk_replay c m s f /\ out = encode_stream L img w h r.
Proof.
  destruct r as [c0 m0 s0 f0]. unfold encode_event. cbn [compr_lvl mem_lvl strat filters].
  intros H. injection H as <- <- <- <- _ _ <-. auto.
Qed.

(** C3. With a tuple P of four unsigned bytes whose compression level is not
    0xFF, [save] with COMPR_GREEDY does not search: its only call into the
    encoder is one [write_to_file] with P, and it returns the stream of that
    encode together with P (the copy out of the stream permitting, which is
    the one way the call can fail).  Every encode with P that a full search on
    the same raster makes produces these same bytes, and the full search does
    make one whenever P is among its candidates. *)
Theorem replay_runs_one_encode_equal_to_trial :
  forall (L : Libs) (img : ndarray) (c m s f : Z) (t : trace),
    is_uint8 c = true -> is_uint8 m = true ->
    is_uint8 s = true -> is_uint8 f = true ->
    c <> 0xFF ->
    let w := width_of img in
    let h := height_of img in
    let P := mk_replay c m s f in
    let run := save L img (Member COMPR_GREEDY) (PyTuple [c; m; s; f]) t in
    snd run = t ++ [encode_event L img w h P] /\
    fst run =
      match copy_out L (encode_stream L img w h P) with
      | Returns out => Returns (out, Some (c, m, s, f))
      | Raises e => Raises e
      end /\
    (fread_complete L (encode_stream L img w h P) ->
     fst run = Returns (encode_stream L img w h P, Some (c, m, s, f))) /\
    (forall w' h' out,
       In (EvWriteToFile c m s f w' h' out)
          (snd (save L img (Member COMPR_GREEDY) PyNone [])) ->
       out = encode_stream L img w h P) /\
    (In P candidates ->
     In (encode_event L img w h P)
        (snd (save L img (Member COMPR_GREEDY) PyNone []))).
Proof.
  intros L img c m s f t Hc Hm Hs Hf Hne w h P run.
  assert (Hfinal : final_params L img (PyTuple [c; m; s; f]) = Some P).
  { cbn [final_params]. rewrite Hc, Hm, Hs, Hf. cbn [andb].
    apply Z.eqb_neq in Hne. rewrite Hne. reflexivity. }
  assert (Hrun : run =
            (match copy_out L (encode_stream L img w h P) with
             | Returns out => Returns (out, Some (c, m, s, f))
             | Raises e => Raises e
             end, t ++ [encode_event L img w h P])).
  { unfold run. rewrite (save_greedy_run L img _ P t Hfinal).
    cbn [searches]. apply Z.eqb_neq in Hne. rewrite Hne. reflexivity. }
  rewrite Hrun. cbn [fst snd].
  split; [reflexivity|]. split; [reflexivity|]. split; [|split].
  - intros Hread. rewrite (copy_out_complete _ _ Hread). reflexivity.
  - intros w' h' out Hin.
    rewrite (save_greedy_run L img PyNone _ [] eq_refl) in Hin.
    cbn [snd searches app] in Hin. fold w h in Hin.
    apply in_app_or in Hin as [Hin|[Hin|[]]].
    + apply in_map_iff in Hin as (r & Hr & _).
      apply encode_event_inj in Hr as [-> ->]. reflexivity.
    + apply encode_event_inj in Hin as [Hw ->]. fold w h. rewrite Hw. reflexivity.
  - intros Hin.
    rewrite (save_greedy_run L img PyNone _ [] eq_refl).
    cbn [snd searches app]. fold w h.
    apply in_or_app. left. apply in_map. exact Hin.
Qed.

Lemma demo_fread_complete fp : fread_complete Examples.demo_libs fp.
Proof.
  unfold fread_complete, ftell_end. cbn [fread Examples.demo_libs Examples.toy_libs].
  unfold Examples.libc_fread. rewrite Z.mul_1_l, Nat2Z.id. apply firstn_all.
Defined.

Lemma replay_runs_one_encode_equal_to_trial_witness :
  let L := Examples.demo_libs in
  let img := Examples.pixel in
  let P := mk_replay 9 8 1 0xF8 in
  let run := save L img (Member COMPR_GREEDY) (PyTuple [9; 8; 1; 0xF8]) [] in
  (snd run = [] ++ [encode_event L img 1 1 P] /\
   fst run =
     match copy_out L (encode_stream L img 1 1 P) with
     | Returns out => Returns (out, Some (9, 8, 1, 0xF8))
     | Raises e => Raises e
     end /\
   (fread_complete L (encode_stream L img 1 1 P) ->
    fst run = Returns (encode_stream L img 1 1 P, Some (9, 8, 1, 0xF8))) /\
   (forall w' h' out,
      In (EvWriteToFile 9 8 1 0xF8 w' h' out)
         (snd (save L img (Member COMPR_GREEDY) PyNone [])) ->
      out = encode_stream L img 1 1 P) /\
   (In P candidates ->
    In (encode_event L img 1 1 P)
       (snd (save L img (Member COMPR_GREEDY) PyNone [])))) /\
  fst run = Returns (encode_stream L img 1 1 P, Some (9, 8, 1, 0xF8)).
Proof.
  intros L img P run.
  pose proof (replay_runs_one_encode_equal_to_trial Examples.demo_libs
                Examples.pixel 9 8 1 0xF8 [] eq_refl eq_refl eq_refl eq_refl
                ltac:(discriminate)) as H.
  split; [exact H|].
  exact (proj1 (proj2 (proj2 H)) (demo_fread_complete _)).
Defined.

(* ================================================================== *)
(** ** The default path *)

Lemma not_greedy_is_false m : m <> Member COMPR_GREEDY -> is_COMPR_GREEDY m = false.
Proof.
  destruct m as [[]|]; try reflexivity. congruence.
Qed.

(** C4. When libpng reports success, [save] with COMPR_DEFAULT asks
    [png_image_write_to_memory] for the size (memory NULL), then makes one
    writing call with the default settings and nothing else, and returns the
    written bytes paired with [None]. *)
Theorem save_default_single_encode_no_params :
  forall (L : Libs) (img : ndarray) (s : settings_arg) (t : trace),
    wresult_of (sizing_call L img) <> 0 ->
    wresult_of (write_call L img) <> 0 ->
    save L img (Member COMPR_DEFAULT) s t =
    (Returns (default_bytes L img, None),
     t ++ [sizing_event L img; write_event L img]).
Proof.
  intros L img s t H1 H2.
  rewrite save_default_run by reflexivity.
  apply Z.eqb_neq in H1, H2. rewrite H1, H2. reflexivity.
Qed.

Lemma save_default_single_encode_no_params_witness :
  save Examples.demo_libs Examples.pixel (Member COMPR_DEFAULT) PyNone [] =
  (Returns (default_bytes Examples.demo_libs Examples.pixel, None),
   [] ++ [sizing_event Examples.demo_libs Examples.pixel;
          write_event Examples.demo_libs Examples.pixel]) /\
  default_bytes Examples.demo_libs Examples.pixel =
  [Byte.x89; Byte.x50; Byte.x4e; Byte.x47; Byte.xff; Byte.x00; Byte.x00; Byte.xff].
Proof.
  split.
  - apply (save_default_single_encode_no_params Examples.demo_libs Examples.pixel
             PyNone []); vm_compute; discriminate.
  - vm_compute. reflexivity.
Defined.



(* ================================================================== *)
(** ** Determinism *)

Lemma search_fold_ext L1 L2 img w h :
  (forall r, encode_stream L1 img w h r = encode_stream L2 img w h r) ->
  forall cs s, search_fold L1 img w h cs s = search_fold L2 img w h cs s.
Proof.
  intros Hext. unfold search_fold.
  induction cs as [|c cs IH]; intros s; [reflexivity|].
  cbn [fold_left].
  replace (pick L1 img w h s c) with (pick L2 img w h s c); [apply IH|].
  unfold pick, stored_size, trial_size. rewrite Hext. reflexivity.
Qed.

(** C5. The full greedy search is deterministic.  Two runs on the same raster,
    from any two earlier traces and with encoders that produce the same
    streams for this raster (and the same [fread]), return the same winning
    tuple from the search and the same outcome of [save] (the same bytes and
    tuple), and make the same calls. *)
Theorem greedy_search_deterministic :
  forall (L1 L2 : Libs) (img : ndarray) (t1 t2 : trace),
    let w := width_of img in
    let h := height_of img in
    (forall r, encode_stream L1 img w h r = encode_stream L2 img w h r) ->
    (forall fp n, fread L1 fp 1 n = fread L2 fp 1 n) ->
    fst (optimize_greedy_iterate L1 img w h t1) =
      fst (optimize_greedy_iterate L2 img w h t2) /\
    fst (save L1 img (Member COMPR_GREEDY) PyNone t1) =
      fst (save L2 img (Member COMPR_GREEDY) PyNone t2) /\
    exists evs,
      snd (save L1 img (Member COMPR_GREEDY) PyNone t1) = t1 ++ evs /\
      snd (save L2 img (Member COMPR_GREEDY) PyNone t2) = t2 ++ evs.
Proof.
  intros L1 L2 img t1 t2 w h Hext Hread.
  assert (Hwin : winner L1 img w h = winner L2 img w h).
  { unfold winner. rewrite (search_fold_ext L1 L2 img w h Hext). reflexivity. }
  assert (Hev : forall r, encode_event L1 img w h r = encode_event L2 img w h r).
  { intros r. unfold encode_event. rewrite Hext. reflexivity. }
  assert (Hcopy : forall fp, copy_out L1 fp = copy_out L2 fp).
  { intros fp. unfold copy_out. rewrite Hread. reflexivity. }
  rewrite !optimize_greedy_iterate_run.
  rewrite (save_greedy_run L1 img PyNone _ t1 eq_refl).
  rewrite (save_greedy_run L2 img PyNone _ t2 eq_refl).
  fold w h. cbn [fst snd searches].
  rewrite Hwin, Hext, Hcopy, Hev.
  split; [reflexivity|]. split; [reflexivity|].
  exists (map (encode_event L2 img w h) candidates
          ++ [encode_event L2 img w h (winner L2 img w h)]).
  split; [|reflexivity].
  f_equal. f_equal. apply map_ext. exact Hev.
Qed.

Lemma greedy_search_deterministic_witness :
  fst (optimize_greedy_iterate Examples.demo_libs Examples.pixel 1 1 []) =
    fst (optimize_greedy_iterate Examples.unsizable_libs Examples.pixel 1 1
           [encode_event Examples.demo_libs Examples.pixel 1 1 (mk_replay 1 1 0 8)]) /\
  fst (save Examples.demo_libs Examples.pixel (Member COMPR_GREEDY) PyNone []) =
    fst (save Examples.unsizable_libs Examples.pixel (Member COMPR_GREEDY) PyNone
           [encode_event Examples.demo_libs Examples.pixel 1 1 (mk_replay 1 1 0 8)]) /\
  exists evs,
    snd (save Examples.demo_libs Examples.pixel (Member COMPR_GREEDY) PyNone []) =
      [] ++ evs /\
    snd (save Examples.unsizable_libs Examples.pixel (Member COMPR_GREEDY) PyNone
           [encode_event Examples.demo_libs Examples.pixel 1 1 (mk_replay 1 1 0 8)]) =
      [encode_event Examples.demo_libs Examples.pixel 1 1 (mk_replay 1 1 0 8)] ++ evs.
Proof.
  exact (greedy_search_deterministic Examples.demo_libs Examples.unsizable_libs
           Examples.pixel [] _
           (fun r => eq_refl) (fun fp n => eq_refl)).
Defined.

(* ================================================================== *)
(** ** Inputs the specification wants rejected *)

(** C6, counterexample. An RGB pixel (shape 1 x 1 x 3: three bytes where
    1*1*4 are expected) is not rejected: [save] with COMPR_GREEDY runs its
    eight trials and the final encode on it. *)
Lemma save_encodes_invalid_raster :
  invalid_raster Examples.rgb_pixel /\
  ~ rejected_before_codec []
      (save Examples.demo_libs Examples.rgb_pixel (Member COMPR_GREEDY) PyNone []) /\
  length (snd (save Examples.demo_libs Examples.rgb_pixel (Member COMPR_GREEDY)
                 PyNone [])) = 9%nat.
Proof.
  split; [right; right; vm_compute; discriminate|].
  split; [intros [_ H]; vm_compute in H; discriminate H|].
  vm_compute. reflexivity.
Qed.

(** C6 (amended). [save] does not check the raster and has no error of its
    own for it; what is refused is refused by libpng, after it has been
    called.  On the default path every raster whose dimensions are zero or
    whose buffer length differs from width*height*4 is handed to the sizing
    call of [png_image_write_to_memory]: when that call reports failure
    [save] raises its MemoryError after this one call, and when both calls
    report success it returns the bytes with None.  On the greedy path without
    settings a raster with positive sides whose buffer length differs from
    width*height*4 goes through the eight trials and the final encode like
    any other raster. *)
Theorem save_passes_invalid_raster_to_codec :
  forall (L : Libs) (img : ndarray) (t : trace),
    invalid_raster img ->
    (forall m s,
       m <> Member COMPR_GREEDY ->
       (exists rest, snd (save L img m s t) = t ++ sizing_event L img :: rest) /\
       (wresult_of (sizing_call L img) = 0 ->
        save L img m s t =
        (Raises (MemoryError "Could not allocate memory for PNG conversion."),
         t ++ [sizing_event L img])) /\
       (wresult_of (sizing_call L img) <> 0 ->
        wresult_of (write_call L img) <> 0 ->
        fst (save L img m s t) = Returns (default_bytes L img, None))) /\
    (0 < shape0 img -> 0 < shape1 img ->
     let w := width_of img in
     let h := height_of img in
     let r := winner L img w h in
     save L img (Member COMPR_GREEDY) PyNone t =
     (match copy_out L (encode_stream L img w h r) with
      | Returns out => Returns (out, Some (settings_tuple r))
      | Raises e => Raises e
      end,
      t ++ map (encode_event L img w h) candidates ++ [encode_event L img w h r])).
Proof.
  intros L img t _. split.
  - intros m s Hm.
    rewrite (save_default_run L img m s t (not_greedy_is_false m Hm)).
    split; [|split].
    + destruct (_ =? 0); [exists []; reflexivity|].
      destruct (_ =? 0); eexists; reflexivity.
    + intros H1. apply Z.eqb_eq in H1. rewrite H1. reflexivity.
    + intros H1 H2. apply Z.eqb_neq in H1, H2. rewrite H1, H2. reflexivity.
  - intros _ _ w h r.
    rewrite (save_greedy_run L img PyNone _ t eq_refl). reflexivity.
Qed.

Lemma save_passes_invalid_raster_to_codec_witness :
  let L := Examples.demo_libs in
  let img := Examples.rgb_pixel in
  invalid_raster img /\
  fst (save L img (Member COMPR_DEFAULT) PyNone []) =
    Returns (default_bytes L img, None) /\
  save L img (Member COMPR_GREEDY) PyNone [] =
    (match copy_out L (encode_stream L img 1 1 (winner L img 1 1)) with
     | Returns out => Returns (out, Some (settings_tuple (winner L img 1 1)))
     | Raises e => Raises e
     end,
     [] ++ map (encode_event L img 1 1) candidates
        ++ [encode_event L img 1 1 (winner L img 1 1)]).
Proof.
  intros L img.
  assert (H : invalid_raster img).
  { right; right; vm_compute; discriminate. }
  pose proof (save_passes_invalid_raster_to_codec L img [] H) as [Hdefault Hgreedy].
  split; [exact H|]. split.
  - destruct (Hdefault (Member COMPR_DEFAULT) PyNone ltac:(discriminate))
      as (_ & _ & Hok).
    apply Hok; vm_compute; discriminate.
  - apply Hgreedy; reflexivity.
Defined.





(* ================================================================== *)
(** ** Failures reported by the encoder *)

Lemma is_greedy_inv m : is_COMPR_GREEDY m = true -> m = Member COMPR_GREEDY.
Proof.
  destruct m as [[]|]; try discriminate. reflexivity.
Qed.

(** C8. Whenever the encoder reports a failure -- the sizing call or the
    writing call of the default path returns 0, or on the greedy path the
    number of bytes [fread] copies out differs from the size of the stream --
    [save] raises MemoryError: the caller gets the exception and no bytes. *)
Theorem codec_failure_raises_memory_error :
  forall (L : Libs) (img : ndarray) (m : method_arg) (s : settings_arg)
         (t : trace),
    codec_failure L img m s ->
    exists msg, fst (save L img m s t) = Raises (MemoryError msg).
Proof.
  intros L img m s t Hfail.
  destruct Hfail as [m s Hm H1 | m s Hm H1 H2 | m s r Hm Hr fp Hshort].
  - rewrite (save_default_run L img m s t Hm).
    apply Z.eqb_eq in H1. rewrite H1. eexists. reflexivity.
  - rewrite (save_default_run L img m s t Hm).
    apply Z.eqb_neq in H1. apply Z.eqb_eq in H2. rewrite H1, H2.
    eexists. reflexivity.
  - apply is_greedy_inv in Hm. subst m.
    rewrite (save_greedy_run L img s r t Hr).
    fold fp. rewrite (copy_out_incomplete L fp Hshort).
    eexists. reflexivity.
Qed.

Lemma unsizable_failure :
  codec_failure Examples.unsizable_libs Examples.pixel (Member COMPR_DEFAULT) PyNone.
Proof.
  apply sizing_failed; reflexivity.
Defined.

Lemma unwritable_failure :
  codec_failure Examples.unwritable_libs Examples.pixel (Member COMPR_DEFAULT) PyNone.
Proof.
  apply write_failed; [reflexivity | vm_compute; discriminate | reflexivity].
Defined.

Lemma short_read_failure :
  codec_failure Examples.short_read_libs Examples.pixel (Member COMPR_GREEDY) PyNone.
Proof.
  apply (copy_incomplete Examples.short_read_libs Examples.pixel
           (Member COMPR_GREEDY) PyNone _ eq_refl eq_refl).
  vm_compute. discriminate.
Defined.

Lemma codec_failure_raises_memory_error_witness :
  (exists msg,
     fst (save Examples.unsizable_libs Examples.pixel (Member COMPR_DEFAULT) PyNone [])
     = Raises (MemoryError msg)) /\
  (exists msg,
     fst (save Examples.unwritable_libs Examples.pixel (Member COMPR_DEFAULT) PyNone [])
     = Raises (MemoryError msg)) /\
  (exists msg,
     fst (save Examples.short_read_libs Examples.pixel (Member COMPR_GREEDY) PyNone [])
     = Raises (MemoryError msg)).
Proof.
  split; [|split].
  - exact (codec_failure_raises_memory_error _ _ _ _ [] unsizable_failure).
  - exact (codec_failure_raises_memory_error _ _ _ _ [] unwritable_failure).
  - exact (codec_failure_raises_memory_error _ _ _ _ [] short_read_failure).
Defined.

(* ================================================================== *)
(** ** Settings that trigger the search *)

(** C9, counterexample. The tuple (0xFF, -1, -1, -1) starts with the
    sentinel, yet no search runs: the fields after the first are converted to
    [uint8_t] before the sentinel is looked at, and [save] raises
    OverflowError without a single call into the encoder. *)
Lemma sentinel_tuple_with_unfit_fields_is_not_searched :
  save Examples.demo_libs Examples.pixel (Member COMPR_GREEDY)
    (PyTuple [0xFF; -1; -1; -1]) [] = (Raises OverflowError, []) /\
  length (snd (save Examples.demo_libs Examples.pixel (Member COMPR_GREEDY)
                 PyNone [])) = 9%nat.
Proof.
  split; vm_compute; reflexivity.
Qed.

(** C9 (amended). When [compr_settings] is None, the empty tuple, or a tuple that
    starts (0xFF, m, s, f) with unsigned bytes, [save] with COMPR_GREEDY runs the full
    search: the eight trials, then the encode with the winner of the search.
    The tuple it returns is that winner, so the m, s and f of the caller play
    no part in the result. *)
Theorem absent_or_sentinel_settings_run_search :
  forall (L : Libs) (img : ndarray) (settings : settings_arg) (t : trace),
    (settings = PyNone \/ settings = PyTuple [] \/
     exists m s f rest,
       is_uint8 m = true /\ is_uint8 s = true /\ is_uint8 f = true /\
       settings = PyTuple (0xFF :: m :: s :: f :: rest)) ->
    let w := width_of img in
    let h := height_of img in
    let r := winner L img w h in
    save L img (Member COMPR_GREEDY) settings t =
    (match copy_out L (encode_stream L img w h r) with
     | Returns out => Returns (out, Some (settings_tuple r))
     | Raises e => Raises e
     end,
     t ++ map (encode_event L img w h) candidates ++ [encode_event L img w h r]).
Proof.
  intros L img settings t Hs w h r.
  assert (Hfinal : final_params L img settings = Some r /\ searches settings = true).
  { destruct Hs as [-> | [-> | (m & s & f & rest & Hm & Hsg & Hf & ->)]];
      [split; reflexivity | split; reflexivity |].
    cbn [final_params searches]. rewrite Hm, Hsg, Hf. split; reflexivity. }
  destruct Hfinal as [Hfinal Hsearch].
  rewrite (save_greedy_run L img settings r t Hfinal), Hsearch. reflexivity.
Qed.

Lemma absent_or_sentinel_settings_run_search_witness :
  let L := Examples.demo_libs in
  let img := Examples.pixel in
  let expected :=
    (Returns (encode_stream L img 1 1 (mk_replay 9 8 1 0xF8), Some (9, 8, 1, 0xF8)),
     map (encode_event L img 1 1) candidates
     ++ [encode_event L img 1 1 (mk_replay 9 8 1 0xF8)]) in
  save L img (Member COMPR_GREEDY) PyNone [] = expected /\
  save L img (Member COMPR_GREEDY) (PyTuple []) [] = expected /\
  save L img (Member COMPR_GREEDY) (PyTuple [0xFF; 1; 2; 0x10]) [] = expected.
Proof.
  intros L img expected.
  assert (E : forall settings,
             save L img (Member COMPR_GREEDY) settings [] =
             (match copy_out L (encode_stream L img 1 1 (winner L img 1 1)) with
              | Returns out => Returns (out, Some (settings_tuple (winner L img 1 1)))
              | Raises e => Raises e
              end,
              [] ++ map (encode_event L img 1 1) candidates
                 ++ [encode_event L img 1 1 (winner L img 1 1)]) ->
             save L img (Member COMPR_GREEDY) settings [] = expected).
  { intros settings ->. vm_compute. reflexivity. }
  split; [|split]; apply E.
  - apply (absent_or_sentinel_settings_run_search L img PyNone []).
    left. reflexivity.
  - apply (absent_or_sentinel_settings_run_search L img (PyTuple []) []).
    right. left. reflexivity.
  - apply (absent_or_sentinel_settings_run_search L img (PyTuple [0xFF; 1; 2; 0x10]) []).
    right. right. exists 1, 2, 0x10, []. repeat split; reflexivity.
Defined.

(* ================================================================== *)
(** ** The search on the sizes as the [int] stores them *)

Lemma Returns_inj (A : Type) (a b : A) : Returns a = Returns b -> a = b.
Proof. intros H. injection H as H. exact H. Qed.

Lemma stored_size_le_int_max L img w h r : stored_size L img w h r <= 0x7fffffff.
Proof.
  unfold stored_size. pose proof (as_int_range (trial_size L img w h r)).
  change (2 ^ 31) with 2147483648 in *. lia.
Qed.

Lemma search_fold_outcome L img w h cs :
  let s := search_fold L img w h cs initial_locals in
  (best_of s = unset_params /\ best_filesize s = 0x7fffffff /\
   forall c, In c cs -> stored_size L img w h c = 0x7fffffff) \/
  (exists i : nat,
     nth_error cs i = Some (best_of s) /\
     best_filesize s = stored_size L img w h (best_of s) /\
     best_filesize s < 0x7fffffff /\
     (forall c, In c cs -> best_filesize s <= stored_size L img w h c) /\
     (forall j c, (j < i)%nat -> nth_error cs j = Some c ->
        best_filesize s < stored_size L img w h c)).
Proof.
  induction cs as [|x pre IH] using rev_ind; cbv zeta.
  - left. split; [reflexivity|]. split; [reflexivity|]. intros c [].
  - rewrite search_fold_snoc.
    cbv zeta in IH. set (s := search_fold L img w h pre initial_locals) in *.
    pose proof (stored_size_le_int_max L img w h x) as Hx.
    destruct IH as [(Hunset & Hbest & Hall) | (i & Hi & Hbest & Hlt & Hall & Hbefore)];
      destruct (pick_cases L img w h s x) as [(Hlt' & Hb & Hf)|(Hge & Hkeep)].
    + right. exists (length pre). rewrite Hb, Hf. repeat split.
      * rewrite nth_error_app2, Nat.sub_diag by lia. reflexivity.
      * lia.
      * intros c Hc. apply in_app_or in Hc as [Hc|[<-|[]]]; [|lia].
        rewrite (Hall c Hc). lia.
      * intros j c Hj Hnth. rewrite nth_error_app1 in Hnth by lia.
        apply nth_error_In in Hnth. rewrite (Hall c Hnth). lia.
    + left. rewrite Hkeep. split; [exact Hunset|]. split; [exact Hbest|].
      intros c Hc. apply in_app_or in Hc as [Hc|[<-|[]]]; [auto|lia].
    + assert (Hilen : (i < length pre)%nat) by (apply nth_error_Some; congruence).
      right. exists (length pre). rewrite Hb, Hf. repeat split.
      * rewrite nth_error_app2, Nat.sub_diag by lia. reflexivity.
      * lia.
      * intros c Hc. apply in_app_or in Hc as [Hc|[<-|[]]]; [|lia].
        specialize (Hall c Hc). lia.
      * intros j c Hj Hnth. rewrite nth_error_app1 in Hnth by lia.
        apply nth_error_In in Hnth. specialize (Hall c Hnth). lia.
    + assert (Hilen : (i < length pre)%nat) by (apply nth_error_Some; congruence).
      right. exists i. rewrite Hkeep. repeat split.
      * rewrite nth_error_app1 by lia. exact Hi.
      * exact Hbest.
      * exact Hlt.
      * intros c Hc. apply in_app_or in Hc as [Hc|[<-|[]]]; [auto|lia].
      * intros j c Hj Hnth. rewrite nth_error_app1 in Hnth by lia. eauto.
Qed.

Lemma winner_cases L img w h :
  winner L img w h = unset_params \/ In (winner L img w h) candidates.
Proof.
  destruct (search_fold_outcome L img w h candidates) as [(H & _)|(i & Hi & _)].
  - left. exact H.
  - right. eapply nth_error_In. exact Hi.
Qed.

Lemma candidate_fields r :
  In r candidates ->
  compr_lvl r = 9 /\ mem_lvl r = 8 /\ 0 <= strat r <= 3 /\
  (filters r = 0x08 \/ filters r = 0xF8).
Proof.
  intros Hr. unfold candidates in Hr.
  repeat (destruct Hr as [<-|Hr]; [cbn; repeat split; auto; lia|]).
  destruct Hr.
Qed.

(** X1. Whenever some trial's size, as stored in the [int], is below
    0x7fffffff, the search returns the first candidate in the order of the
    loops whose stored size is the least.  No bound on the real sizes is
    needed: sizes of 2^31 bytes and more take part with their wrapped
    values. *)
Theorem search_returns_first_least_stored_size :
  forall (L : Libs) (img : ndarray) (w h : Z) (t : trace),
    (exists c, In c candidates /\ stored_size L img w h c < 0x7fffffff) ->
    exists r,
      fst (optimize_greedy_iterate L img w h t) = Returns r /\
      first_minimal_stored L img w h r.
Proof.
  intros L img w h t (c & Hc & Hlt).
  exists (winner L img w h). rewrite optimize_greedy_iterate_run.
  split; [reflexivity|].
  destruct (search_fold_outcome L img w h candidates)
    as [(_ & _ & Hall)|(i & Hi & Hbest & _ & Hall & Hbefore)].
  - rewrite (Hall c Hc) in Hlt. lia.
  - fold (winner L img w h) in Hi, Hbest.
    exists i. rewrite <- Hbest. auto.
Qed.

Lemma search_returns_first_least_stored_size_witness :
  (exists c, In c candidates /\
     stored_size Examples.demo_libs Examples.pixel 1 1 c < 0x7fffffff) /\
  exists r,
    fst (optimize_greedy_iterate Examples.demo_libs Examples.pixel 1 1 []) = Returns r /\
    first_minimal_stored Examples.demo_libs Examples.pixel 1 1 r.
Proof.
  assert (H : exists c, In c candidates /\
                stored_size Examples.demo_libs Examples.pixel 1 1 c < 0x7fffffff).
  { exists (mk_replay 9 8 0 0x08). split; [left; reflexivity|vm_compute; reflexivity]. }
  split; [exact H|].
  exact (search_returns_first_least_stored_size Examples.demo_libs Examples.pixel
           1 1 [] H).
Defined.

(** X2. The search returns the tuple of 0xFF exactly when no trial's stored
    size is below the initial 0x7fffffff, that is when all eight are equal to
    it; in every other case it returns one of the eight candidates, so
    compression level 9, memory level 8, a strategy in 0..3 and filter 0x08
    or 0xF8. *)
Theorem search_returns_unset_iff_no_trial_below_int_max :
  forall (L : Libs) (img : ndarray) (w h : Z) (t : trace),
    (fst (optimize_greedy_iterate L img w h t) = Returns unset_params <->
     forall c, In c candidates -> stored_size L img w h c = 0x7fffffff) /\
    (fst (optimize_greedy_iterate L img w h t) = Returns unset_params \/
     exists r,
       fst (optimize_greedy_iterate L img w h t) = Returns r /\
       In r candidates /\
       compr_lvl r = 9 /\ mem_lvl r = 8 /\ 0 <= strat r <= 3 /\
       (filters r = 0x08 \/ filters r = 0xF8)).
Proof.
  intros L img w h t. rewrite optimize_greedy_iterate_run. cbn [fst].
  split; [split|].
  - intros Hw. apply Returns_inj in Hw.
    destruct (search_fold_outcome L img w h candidates)
      as [(_ & _ & Hall)|(i & Hi & _)]; [exact Hall|].
    fold (winner L img w h) in Hi. rewrite Hw in Hi.
    apply nth_error_In, candidate_fields in Hi. cbn in Hi. lia.
  - intros Hall.
    destruct (search_fold_outcome L img w h candidates)
      as [(Hu & _)|(i & Hi & Hbest & Hlt & _)].
    + fold (winner L img w h) in Hu. rewrite Hu. reflexivity.
    + fold (winner L img w h) in Hi, Hbest.
      apply nth_error_In in Hi. rewrite Hbest, (Hall _ Hi) in Hlt. lia.
  - destruct (winner_cases L img w h) as [Hu|Hin].
    + left. rewrite Hu. reflexivity.
    + right. exists (winner L img w h). split; [reflexivity|].
      split; [exact Hin|]. apply candidate_fields. exact Hin.
Qed.

Lemma stored_size_wrapped L img w h r :
  2 ^ 31 <= trial_size L img w h r < 2 ^ 32 ->
  stored_size L img w h r = trial_size L img w h r - 2 ^ 32.
Proof.
  intros Hr. unfold stored_size, as_int.
  replace (trial_size L img w h r + 2 ^ 31)
    with ((trial_size L img w h r - 2 ^ 31) + 1 * 2 ^ 32) by lia.
  rewrite Z.mod_add by lia. rewrite Z.mod_small by lia. lia.
Qed.

(** X3. The sizes are compared after conversion to [int]: when the encode of
    some candidate has between 2^31 and 2^32 - 1 bytes, its stored size is
    negative and the search returns no candidate whose encode has fewer than
    2^31 bytes, however small. *)
Theorem search_prefers_wrapped_size :
  forall (L : Libs) (img : ndarray) (w h : Z) (t : trace)
         (c c' : greedy_replay_param),
    In c candidates ->
    2 ^ 31 <= trial_size L img w h c < 2 ^ 32 ->
    In c' candidates ->
    trial_size L img w h c' < 2 ^ 31 ->
    fst (optimize_greedy_iterate L img w h t) <> Returns c'.
Proof.
  intros L img w h t c c' Hc Hbig Hc' Hsmall.
  rewrite optimize_greedy_iterate_run. cbn [fst]. intros Hw. apply Returns_inj in Hw.
  pose proof (stored_size_wrapped L img w h c Hbig) as Hsc.
  assert (Hsc' : stored_size L img w h c' = trial_size L img w h c').
  { apply as_int_small. pose proof (trial_size_nonneg L img w h c'). lia. }
  pose proof (trial_size_nonneg L img w h c') as Hnn.
  destruct (search_fold_outcome L img w h candidates)
    as [(_ & _ & Hall)|(i & _ & Hbest & _ & Hall & _)].
  - rewrite (Hall c Hc) in Hsc. lia.
  - fold (winner L img w h) in Hbest. rewrite Hw in Hbest.
    specialize (Hall c Hc). lia.
Qed.

Lemma wrap_stream_big :
  encode_stream Examples.wrap_libs Examples.pixel 1 1 (mk_replay 9 8 0 0x08) =
  (Examples.signature ++ data Examples.pixel) ++ repeat Byte.x00 Examples.wrap_count.
Proof.
  unfold encode_stream, write_to_file_stream.
  change (range 0 1) with [0]. reflexivity.
Qed.

Lemma wrap_trial_size_big :
  trial_size Examples.wrap_libs Examples.pixel 1 1 (mk_replay 9 8 0 0x08) = 2 ^ 31.
Proof.
  unfold trial_size, ftell_end. rewrite wrap_stream_big.
  rewrite length_app, repeat_length.
  change (length (Examples.signature ++ data Examples.pixel)) with 8%nat.
  unfold Examples.wrap_count.
  rewrite Nat2Z.inj_add, Z2Nat.id by (change (2 ^ 31) with 2147483648; lia).
  change (2 ^ 31) with 2147483648. reflexivity.
Qed.

Lemma wrap_trial_size_small :
  trial_size Examples.wrap_libs Examples.pixel 1 1 (mk_replay 9 8 1 0x08) = 8.
Proof.
  assert (H : encode_stream Examples.wrap_libs Examples.pixel 1 1
                (mk_replay 9 8 1 0x08) =
              (Examples.signature ++ data Examples.pixel) ++ []).
  { unfold encode_stream, write_to_file_stream.
    change (range 0 1) with [0]. reflexivity. }
  unfold trial_size. rewrite H. reflexivity.
Qed.

Lemma search_prefers_wrapped_size_witness :
  trial_size Examples.wrap_libs Examples.pixel 1 1 (mk_replay 9 8 0 0x08) = 2 ^ 31 /\
  trial_size Examples.wrap_libs Examples.pixel 1 1 (mk_replay 9 8 1 0x08) = 8 /\
  fst (optimize_greedy_iterate Examples.wrap_libs Examples.pixel 1 1 []) <>
    Returns (mk_replay 9 8 1 0x08).
Proof.
  split; [exact wrap_trial_size_big|]. split; [exact wrap_trial_size_small|].
  apply (search_prefers_wrapped_size Examples.wrap_libs Examples.pixel 1 1 []
           (mk_replay 9 8 0 0x08) (mk_replay 9 8 1 0x08)).
  - left. reflexivity.
  - rewrite wrap_trial_size_big. change (2 ^ 31) with 2147483648.
    change (2 ^ 32) with 4294967296. lia.
  - right. left. reflexivity.
  - rewrite wrap_trial_size_small. change (2 ^ 31) with 2147483648. lia.
Defined.

(** C2. The search does not always return the candidate of least size.  The
    size of a trial is stored in an [int]: when the encode of some candidate
    has between 2^31 and 2^32 - 1 bytes while the encode of another has fewer
    than 2^31, the search returns a candidate whose encode is larger than that
    of the second, so not the first candidate of minimal size -- against the
    docstring of [optimize_greedy_iterate], "Settings that generate the
    smallest PNG". *)
Theorem search_misses_smallest_when_a_size_wraps :
  forall (L : Libs) (img : ndarray) (w h : Z) (t : trace)
         (c c' : greedy_replay_param),
    In c candidates ->
    2 ^ 31 <= trial_size L img w h c < 2 ^ 32 ->
    In c' candidates ->
    trial_size L img w h c' < 2 ^ 31 ->
    exists r,
      fst (optimize_greedy_iterate L img w h t) = Returns r /\
      In r candidates /\
      trial_size L img w h c' < trial_size L img w h r /\
      ~ first_minimal L img w h r.
Proof.
  intros L img w h t c c' Hc Hbig Hc' Hsmall.
  exists (winner L img w h). rewrite optimize_greedy_iterate_run.
  split; [reflexivity|].
  pose proof (stored_size_wrapped L img w h c Hbig) as Hsc.
  destruct (search_fold_outcome L img w h candidates)
    as [(_ & _ & Hall)|(i & Hi & Hbest & _ & Hall & _)].
  - rewrite (Hall c Hc) in Hsc. lia.
  - fold (winner L img w h) in Hi, Hbest.
    assert (Hin : In (winner L img w h) candidates) by (eapply nth_error_In; eauto).
    assert (Hlarge : 2 ^ 31 <= trial_size L img w h (winner L img w h)).
    { destruct (Z.lt_ge_cases (trial_size L img w h (winner L img w h)) (2 ^ 31))
        as [Hlt|Hge]; [|exact Hge].
      pose proof (trial_size_nonneg L img w h (winner L img w h)) as Hnn.
      assert (Hs : stored_size L img w h (winner L img w h) =
                   trial_size L img w h (winner L img w h)).
      { apply as_int_small. lia. }
      specialize (Hall c Hc). rewrite Hbest, Hs in Hall. lia. }
    split; [exact Hin|]. split; [lia|].
    intros (j & _ & Hleast & _). specialize (Hleast c' Hc'). lia.
Qed.

Lemma search_misses_smallest_when_a_size_wraps_witness :
  trial_size Examples.wrap_libs Examples.pixel 1 1 (mk_replay 9 8 0 0x08) = 2 ^ 31 /\
  trial_size Examples.wrap_libs Examples.pixel 1 1 (mk_replay 9 8 1 0x08) = 8 /\
  exists r,
    fst (optimize_greedy_iterate Examples.wrap_libs Examples.pixel 1 1 []) = Returns r /\
    In r candidates /\
    trial_size Examples.wrap_libs Examples.pixel 1 1 (mk_replay 9 8 1 0x08) <
      trial_size Examples.wrap_libs Examples.pixel 1 1 r /\
    ~ first_minimal Examples.wrap_libs Examples.pixel 1 1 r.
Proof.
  split; [exact wrap_trial_size_big|]. split; [exact wrap_trial_size_small|].
  apply (search_misses_smallest_when_a_size_wraps Examples.wrap_libs
           Examples.pixel 1 1 [] (mk_replay 9 8 0 0x08) (mk_replay 9 8 1 0x08)).
  - left. reflexivity.
  - rewrite wrap_trial_size_big. change (2 ^ 31) with 2147483648.
    change (2 ^ 32) with 4294967296. lia.
  - right. left. reflexivity.
  - rewrite wrap_trial_size_small. change (2 ^ 31) with 2147483648. lia.
Defined.

(* ================================================================== *)
(** ** Search, then replay *)

Lemma candidate_final_params L img r rest :
  In r candidates ->
  final_params L img (PyTuple (compr_lvl r :: mem_lvl r :: strat r :: filters r :: rest))
  = Some r /\
  searches (PyTuple (compr_lvl r :: mem_lvl r :: strat r :: filters r :: rest)) = false.
Proof.
  intros Hr. unfold candidates in Hr.
  repeat (destruct Hr as [<-|Hr]; [split; reflexivity|]).
  destruct Hr.
Qed.

Lemma settings_tuple_inj r c m s f :
  settings_tuple r = (c, m, s, f) -> r = mk_replay c m s f.
Proof.
  destruct r. unfold settings_tuple. cbn. intros H. injection H as -> -> -> ->.
  reflexivity.
Qed.

(** X4. Search, then replay.  When [save] with COMPR_GREEDY and no settings
    returns bytes b and settings (c, m, s, f), [save] with COMPR_GREEDY and
    these settings returns the same b and the same settings; unless c is
    0xFF it does so with a single encode. *)
Theorem replay_of_returned_settings_returns_same :
  forall (L : Libs) (img : ndarray) (t t' : trace) (b : list byte)
         (c m s f : Z),
    fst (save L img (Member COMPR_GREEDY) PyNone t) = Returns (b, Some (c, m, s, f)) ->
    fst (save L img (Member COMPR_GREEDY) (PyTuple [c; m; s; f]) t') =
      Returns (b, Some (c, m, s, f)) /\
    (c <> 0xFF ->
     snd (save L img (Member COMPR_GREEDY) (PyTuple [c; m; s; f]) t') =
     t' ++ [encode_event L img (width_of img) (height_of img) (mk_replay c m s f)]).
Proof.
  intros L img t t' b c m s f Hrun.
  rewrite (save_greedy_run L img PyNone _ t eq_refl) in Hrun. cbn [fst] in Hrun.
  set (w := width_of img) in *. set (h := height_of img) in *.
  destruct (copy_out L (encode_stream L img w h (winner L img w h))) as [out|e] eqn:Hcopy;
    [|discriminate Hrun].
  apply Returns_inj in Hrun.
  assert (Hout : out = b) by congruence.
  assert (Htuple : settings_tuple (winner L img w h) = (c, m, s, f)) by congruence.
  apply settings_tuple_inj in Htuple. subst out.
  destruct (winner_cases L img w h) as [Hu|Hin].
  - (* the search found nothing: the replay searches again *)
    rewrite Hu in Htuple. unfold unset_params in Htuple.
    injection Htuple as <- <- <- <-.
    rewrite (save_greedy_run L img (PyTuple [255; 255; 255; 255]) _ t' eq_refl).
    fold w h. cbn [fst]. rewrite Hcopy, Hu. split; [reflexivity|].
    intros Hne. congruence.
  - pose proof (candidate_final_params L img _ [] Hin) as [Hfinal Hsearch].
    fold w h in Hfinal. rewrite Htuple in Hfinal, Hsearch.
    cbn [compr_lvl mem_lvl strat filters] in Hfinal, Hsearch.
    rewrite (save_greedy_run L img _ _ t' Hfinal), Hsearch.
    fold w h. rewrite <- Htuple, Hcopy. cbn [fst snd app].
    rewrite Htuple. split; [reflexivity|]. intros _. reflexivity.
Qed.

Lemma demo_full_search_result :
  fst (save Examples.demo_libs Examples.pixel (Member COMPR_GREEDY) PyNone []) =
  Returns ([Byte.x89; Byte.x50; Byte.x4e; Byte.x47;
            Byte.xff; Byte.x00; Byte.x00; Byte.xff;
            Byte.x00; Byte.x00; Byte.x00],
           Some (9, 8, 1, 0xF8)).
Proof. vm_compute. reflexivity. Defined.

Lemma replay_of_returned_settings_returns_same_witness :
  let b := [Byte.x89; Byte.x50; Byte.x4e; Byte.x47;
            Byte.xff; Byte.x00; Byte.x00; Byte.xff;
            Byte.x00; Byte.x00; Byte.x00] in
  fst (save Examples.demo_libs Examples.pixel (Member COMPR_GREEDY) PyNone []) =
    Returns (b, Some (9, 8, 1, 0xF8)) /\
  fst (save Examples.demo_libs Examples.pixel (Member COMPR_GREEDY)
         (PyTuple [9; 8; 1; 0xF8]) []) = Returns (b, Some (9, 8, 1, 0xF8)) /\
  (9 <> 0xFF ->
   snd (save Examples.demo_libs Examples.pixel (Member COMPR_GREEDY)
          (PyTuple [9; 8; 1; 0xF8]) []) =
   [] ++ [encode_event Examples.demo_libs Examples.pixel 1 1 (mk_replay 9 8 1 0xF8)]).
Proof.
  intros b. split; [exact demo_full_search_result|].
  exact (replay_of_returned_settings_returns_same Examples.demo_libs Examples.pixel
           [] [] b 9 8 1 0xF8 demo_full_search_result).
Defined.

(** X5. When every trial has fewer than 0x7fffffff bytes and [fread] copies
    streams whole, [save] with COMPR_GREEDY and no settings returns the stream
    of one of the eight candidates together with that candidate, and the
    returned bytes are no longer than the encode of any candidate. *)
Theorem greedy_save_returns_smallest_trial :
  forall (L : Libs) (img : ndarray) (t : trace),
    let w := width_of img in
    let h := height_of img in
    trials_below_int_max L img w h ->
    (forall fp, fread_complete L fp) ->
    exists P,
      In P candidates /\
      fst (save L img (Member COMPR_GREEDY) PyNone t) =
        Returns (encode_stream L img w h P, Some (settings_tuple P)) /\
      forall c, In c candidates ->
        Z.of_nat (length (encode_stream L img w h P)) <=
        Z.of_nat (length (encode_stream L img w h c)).
Proof.
  intros L img t w h Hbound Hread.
  exists (winner L img w h).
  assert (Hsz : forall c, In c candidates ->
              stored_size L img w h c = trial_size L img w h c).
  { intros c Hc. apply as_int_small.
    pose proof (trial_size_nonneg L img w h c). specialize (Hbound c Hc).
    change (2 ^ 31) with 2147483648. lia. }
  destruct (search_fold_outcome L img w h candidates)
    as [(_ & _ & Hall)|(i & Hi & Hbest & _ & Hall & _)].
  - specialize (Hall _ (or_introl eq_refl)).
    rewrite Hsz in Hall by (left; reflexivity).
    specialize (Hbound _ (or_introl eq_refl)). lia.
  - fold (winner L img w h) in Hi, Hbest.
    assert (Hin : In (winner L img w h) candidates) by (eapply nth_error_In; eauto).
    split; [exact Hin|]. split.
    + rewrite (save_greedy_run L img PyNone _ t eq_refl). fold w h.
      rewrite (copy_out_complete L _ (Hread _)). reflexivity.
    + intros c Hc. specialize (Hall c Hc).
      rewrite Hbest, (Hsz _ Hin), (Hsz _ Hc) in Hall. exact Hall.
Qed.

Lemma greedy_save_returns_smallest_trial_witness :
  trials_below_int_max Examples.demo_libs Examples.pixel 1 1 /\
  (forall fp, fread_complete Examples.demo_libs fp) /\
  exists P,
    In P candidates /\
    fst (save Examples.demo_libs Examples.pixel (Member COMPR_GREEDY) PyNone []) =
      Returns (encode_stream Examples.demo_libs Examples.pixel 1 1 P,
               Some (settings_tuple P)) /\
    forall c, In c candidates ->
      Z.of_nat (length (encode_stream Examples.demo_libs Examples.pixel 1 1 P)) <=
      Z.of_nat (length (encode_stream Examples.demo_libs Examples.pixel 1 1 c)).
Proof.
  split; [exact demo_trials_below_int_max|].
  split; [exact demo_fread_complete|].
  exact (greedy_save_returns_smallest_trial Examples.demo_libs Examples.pixel []
           demo_trials_below_int_max demo_fread_complete).
Defined.

(* ================================================================== *)
(** ** Settings that do not fit the struct *)

(** X6. A tuple of at least four items of which one of the first four is
    outside 0..255 makes [save] with COMPR_GREEDY raise OverflowError before
    any call into the encoder -- also when its first item is the sentinel
    0xFF, in which case no search runs. *)
Theorem settings_outside_byte_raise_overflow :
  forall (L : Libs) (img : ndarray) (c m s f : Z) (rest : list Z) (t : trace),
    is_uint8 c && is_uint8 m && is_uint8 s && is_uint8 f = false ->
    save L img (Member COMPR_GREEDY) (PyTuple (c :: m :: s :: f :: rest)) t =
    (Raises OverflowError, t).
Proof.
  intros L img c m s f rest t E.
  unfold save. cbn [is_COMPR_GREEDY truthy getitem nth_error].
  unfold bind, ret. rewrite as_uint8_t_run.
  destruct (is_uint8 c); [cbv beta iota|reflexivity].
  rewrite as_uint8_t_run.
  destruct (is_uint8 m); [cbv beta iota|reflexivity].
  rewrite as_uint8_t_run.
  destruct (is_uint8 s); [cbv beta iota|reflexivity].
  rewrite as_uint8_t_run.
  destruct (is_uint8 f); [discriminate E|reflexivity].
Qed.

Lemma settings_outside_byte_raise_overflow_witness :
  save Examples.demo_libs Examples.pixel (Member COMPR_GREEDY)
    (PyTuple [0xFF; -1; -1; -1]) [] = (Raises OverflowError, []) /\
  save Examples.demo_libs Examples.pixel (Member COMPR_GREEDY)
    (PyTuple [9; 8; 0; 256; 7]) [] = (Raises OverflowError, []).
Proof.
  split.
  - exact (settings_outside_byte_raise_overflow Examples.demo_libs Examples.pixel
             0xFF (-1) (-1) (-1) [] [] eq_refl).
  - exact (settings_outside_byte_raise_overflow Examples.demo_libs Examples.pixel
             9 8 0 256 [7] [] eq_refl).
Defined.

(* ================================================================== *)
(** ** Order of the failures *)

(** X7. On the default path a failed sizing call ends [save] at once: the
    writing call is never made and the MemoryError says that memory could not
    be allocated.  A failed writing call, after a successful sizing call, is
    reported with its own message after both calls. *)
Theorem default_path_failures_in_order :
  forall (L : Libs) (img : ndarray) (m : method_arg) (s : settings_arg)
         (t : trace),
    m <> Member COMPR_GREEDY ->
    (wresult_of (sizing_call L img) = 0 ->
     save L img m s t =
     (Raises (MemoryError "Could not allocate memory for PNG conversion."),
      t ++ [sizing_event L img])) /\
    (wresult_of (sizing_call L img) <> 0 ->
     wresult_of (write_call L img) = 0 ->
     save L img m s t =
     (Raises (MemoryError "Write to buffer failed for PNG conversion."),
      t ++ [sizing_event L img; write_event L img])).
Proof.
  intros L img m s t Hm.
  rewrite (save_default_run L img m s t (not_greedy_is_false m Hm)).
  split.
  - intros H1. apply Z.eqb_eq in H1. rewrite H1. reflexivity.
  - intros H1 H2. apply Z.eqb_neq in H1. apply Z.eqb_eq in H2.
    rewrite H1, H2. reflexivity.
Qed.

Lemma default_path_failures_in_order_witness :
  save Examples.unsizable_libs Examples.pixel (Member COMPR_DEFAULT) PyNone [] =
    (Raises (MemoryError "Could not allocate memory for PNG conversion."),
     [] ++ [sizing_event Examples.unsizable_libs Examples.pixel]) /\
  save Examples.unwritable_libs Examples.pixel (Member COMPR_NONE) PyNone [] =
    (Raises (MemoryError "Write to buffer failed for PNG conversion."),
     [] ++ [sizing_event Examples.unwritable_libs Examples.pixel;
            write_event Examples.unwritable_libs Examples.pixel]).
Proof.
  split.
  - apply (default_path_failures_in_order Examples.unsizable_libs Examples.pixel
             (Member COMPR_DEFAULT) PyNone []); [discriminate | reflexivity].
  - apply (default_path_failures_in_order Examples.unwritable_libs Examples.pixel
             (Member COMPR_NONE) PyNone []);
      [discriminate | vm_compute; discriminate | reflexivity].
Defined.

(** X8. On the greedy path the copy of the stream is checked last: when
    [fread] delivers a wrong number of bytes after a full search, the eight
    trials and the final encode have all been made before [save] raises the
    MemoryError of the copy. *)
Theorem greedy_copy_failure_after_all_encodes :
  forall (L : Libs) (img : ndarray) (t : trace),
    let w := width_of img in
    let h := height_of img in
    let fp := encode_stream L img w h (winner L img w h) in
    Z.of_nat (length (fread L fp 1 (ftell_end fp))) <> ftell_end fp ->
    save L img (Member COMPR_GREEDY) PyNone t =
    (Raises (MemoryError "Copy to bytearray failed for PNG conversion."),
     t ++ map (encode_event L img w h) candidates
       ++ [encode_event L img w h (winner L img w h)]).
Proof.
  intros L img t w h fp Hshort.
  rewrite (save_greedy_run L img PyNone _ t eq_refl). fold w h fp.
  rewrite (copy_out_incomplete L fp Hshort). reflexivity.
Qed.

Lemma greedy_copy_failure_after_all_encodes_witness :
  let L := Examples.short_read_libs in
  let img := Examples.pixel in
  save L img (Member COMPR_GREEDY) PyNone [] =
  (Raises (MemoryError "Copy to bytearray failed for PNG conversion."),
   [] ++ map (encode_event L img 1 1) candidates
      ++ [encode_event L img 1 1 (winner L img 1 1)]).
Proof.
  intros L img.
  apply (greedy_copy_failure_after_all_encodes Examples.short_read_libs
           Examples.pixel []).
  vm_compute. discriminate.
Defined.

(* ================================================================== *)
(** ** The bytes of the default path *)

Lemma memcpy_length dst src n :
  length dst = Z.to_nat n -> length (memcpy dst src n) = Z.to_nat n.
Proof.
  intros Hd. unfold memcpy, overwrite.
  rewrite length_app, length_skipn, length_firstn, Hd. lia.
Qed.

Lemma memcpy_exact dst src n :
  length dst = Z.to_nat n -> length src = Z.to_nat n -> memcpy dst src n = src.
Proof.
  intros Hd Hs. unfold memcpy.
  rewrite <- Hs, firstn_all. apply overwrite_same_length. congruence.
Qed.

(** X9. When both calls of the default path succeed, the bytearray [save]
    returns has exactly as many bytes as the writing call reported in
    [*memory_bytes]; when libpng wrote that many bytes, the returned bytes are
    the bytes libpng wrote. *)
Theorem default_save_returns_reported_bytes :
  forall (L : Libs) (img : ndarray) (s : settings_arg) (t : trace),
    wresult_of (sizing_call L img) <> 0 ->
    wresult_of (write_call L img) <> 0 ->
    let n := memory_bytes_of (write_call L img) in
    exists b,
      fst (save L img (Member COMPR_DEFAULT) s t) = Returns (b, None) /\
      length b = Z.to_nat n /\
      (length (written_of (write_call L img)) = Z.to_nat n ->
       b = written_of (write_call L img)).
Proof.
  intros L img s t H1 H2 n.
  exists (default_bytes L img).
  rewrite (save_default_run L img (Member COMPR_DEFAULT) s t eq_refl).
  apply Z.eqb_neq in H1, H2. rewrite H1, H2.
  assert (Hlen : length (bytearray n) = Z.to_nat n).
  { unfold bytearray. apply repeat_length. }
  split; [reflexivity|]. unfold default_bytes. fold n. split.
  - apply memcpy_length. exact Hlen.
  - intros Hw. apply memcpy_exact; assumption.
Qed.

Lemma default_save_returns_reported_bytes_witness :
  let L := Examples.demo_libs in
  let img := Examples.two_by_two in
  exists b,
    fst (save L img (Member COMPR_DEFAULT) PyNone []) = Returns (b, None) /\
    length b = Z.to_nat (memory_bytes_of (write_call L img)) /\
    (length (written_of (write_call L img)) =
       Z.to_nat (memory_bytes_of (write_call L img)) ->
     b = written_of (write_call L img)).
Proof.
  intros L img.
  apply (default_save_returns_reported_bytes Examples.demo_libs
           Examples.two_by_two PyNone []); vm_compute; discriminate.
Defined.

(* ================================================================== *)
(** ** The rows [write_to_file] streams *)

Lemma In_range lo hi i : In i (range lo hi) <-> lo <= i < hi.
Proof.
  unfold range. rewrite in_map_iff. split.
  - intros (j & <- & Hj). apply in_seq in Hj. lia.
  - intros Hi. exists (Z.to_nat (i - lo)). split; [lia|].
    apply in_seq. lia.
Qed.

Lemma range_length lo hi : length (range lo hi) = Z.to_nat (hi - lo).
Proof. unfold range. rewrite length_map, length_seq. reflexivity. Qed.

Lemma range_nonpositive h : h <= 0 -> range 0 h = [].
Proof.
  intros Hh. unfold range. replace (Z.to_nat (h - 0)) with 0%nat by lia.
  reflexivity.
Qed.

Lemma fold_left_map_compose (A B C : Type) (f : A -> C -> A) (g : B -> C)
    (l : list B) (a : A) :
  fold_left f (map g l) a = fold_left (fun a x => f a (g x)) l a.
Proof.
  revert a. induction l as [|x l IH]; intros a; [reflexivity|].
  cbn [map fold_left]. apply IH.
Qed.

(** [write_to_file] reads the raster only through the row pointers of
    [rows_passed], fed in order between [png_write_info] and
    [png_write_end]. *)
Lemma write_to_file_stream_rows L img fp c m s f w h :
  write_to_file_stream L img fp c m s f w h =
  let i0 := configured_info L c m s f w h in
  let '(p1, o1) := png_write_info L (configured_struct L c m s f) i0 in
  let '(p2, fp2) := feed_rows L (rows_passed img h) (p1, fp ++ o1) in
  let '(_, o3) := png_write_end L p2 i0 in
  fp2 ++ o3.
Proof.
  unfold write_to_file_stream, feed_rows, rows_passed, configured_info,
    configured_struct.
  cbv zeta. destruct (png_write_info _ _ _) as [p1 o1].
  rewrite fold_left_map_compose. reflexivity.
Qed.

Lemma width_of_small a : 0 <= shape1 a < 2 ^ 31 -> width_of a = shape1 a.
Proof.
  intros H. unfold width_of, as_unsigned_int.
  rewrite Z.mod_small by lia. apply as_int_small. lia.
Qed.

Lemma height_of_small a : 0 <= shape0 a < 2 ^ 31 -> height_of a = shape0 a.
Proof.
  intros H. unfold height_of, as_unsigned_int.
  rewrite Z.mod_small by lia. apply as_int_small. lia.
Qed.

Lemma elem_ptr_row_length a i :
  contiguous a -> 0 <= i <= shape0 a ->
  Z.of_nat (length (elem_ptr a i 0 0)) = (shape0 a - i) * shape1 a * shape2 a.
Proof.
  intros (H0 & H1 & H2 & Hlen) Hi. unfold elem_ptr.
  rewrite length_skipn.
  replace ((i * shape1 a + 0) * shape2 a + 0) with (i * (shape1 a * shape2 a)) by ring.
  replace ((shape0 a - i) * shape1 a * shape2 a)
    with ((shape0 a - i) * (shape1 a * shape2 a)) by ring.
  replace (shape0 a * shape1 a * shape2 a)
    with (shape0 a * (shape1 a * shape2 a)) in Hlen by ring.
  assert (Hp : 0 <= shape1 a * shape2 a) by (apply Z.mul_nonneg_nonneg; lia).
  revert Hlen Hp. generalize (shape1 a * shape2 a). intros p Hlen Hp.
  assert (0 <= i * p <= shape0 a * p) by nia.
  rewrite Nat2Z.inj_sub by lia. rewrite Z2Nat.id by lia. nia.
Qed.

Lemma tile_concat (A : Type) (k n : nat) :
  forall l : list A,
    length l = (n * k)%nat ->
    concat (map (fun j => firstn k (skipn (j * k) l)) (seq 0 n)) = l.
Proof.
  induction n as [|n IH]; intros l Hlen.
  - destruct l; [reflexivity|discriminate].
  - cbn [seq map concat]. rewrite <- seq_shift, map_map.
    cbn [Nat.mul skipn].
    transitivity (firstn k l ++ skipn k l); [|apply firstn_skipn].
    f_equal.
    rewrite <- (IH (skipn k l)) by (rewrite length_skipn; lia).
    f_equal. apply map_ext. intros j.
    rewrite skipn_skipn. f_equal. f_equal. lia.
Qed.

Lemma rows_passed_as_seq a h :
  0 <= shape1 a -> 0 <= shape2 a ->
  rows_passed a h =
  map (fun j => skipn (j * Z.to_nat (shape1 a * shape2 a)) (data a))
      (seq 0 (Z.to_nat h)).
Proof.
  intros H1 H2. unfold rows_passed, range. rewrite map_map, Z.sub_0_r.
  apply map_ext. intros j. unfold elem_ptr. f_equal.
  replace ((0 + Z.of_nat j) * shape1 a + 0) with (Z.of_nat j * shape1 a) by ring.
  rewrite Z.add_0_r, <- Z.mul_assoc, Z2Nat.inj_mul, Nat2Z.id by nia.
  reflexivity.
Qed.

(** X10. For a C-contiguous RGBA raster (shape[2] = 4, sides below 2^31)
    [write_to_file] hands [png_write_row] one pointer per row of the raster;
    behind each pointer at least one whole row (4*width bytes) lies inside the
    buffer, and the rows read from the pointers, one after the other, are
    exactly the buffer: every pixel is streamed once, in order. *)
Theorem rows_streamed_tile_the_buffer :
  forall img : ndarray,
    contiguous img ->
    shape2 img = 4 ->
    shape0 img < 2 ^ 31 ->
    shape1 img < 2 ^ 31 ->
    let w := width_of img in
    let h := height_of img in
    length (rows_passed img h) = Z.to_nat (shape0 img) /\
    Forall (fun row => 4 * w <= Z.of_nat (length row)) (rows_passed img h) /\
    concat (map (firstn (Z.to_nat (4 * w))) (rows_passed img h)) = data img.
Proof.
  intros img Hc H2 Hs0 Hs1 w h.
  pose proof Hc as (H0 & H1 & _ & Hlen).
  assert (Hw : w = shape1 img) by (apply width_of_small; lia).
  assert (Hh : h = shape0 img) by (apply height_of_small; lia).
  rewrite Hw, Hh. split; [|split].
  - unfold rows_passed. rewrite length_map, range_length. f_equal. lia.
  - apply Forall_forall. intros row Hrow.
    unfold rows_passed in Hrow. apply in_map_iff in Hrow as (i & <- & Hi).
    apply In_range in Hi.
    rewrite (elem_ptr_row_length img i Hc) by lia. rewrite H2. nia.
  - rewrite (rows_passed_as_seq img (shape0 img)) by lia.
    rewrite map_map, H2.
    replace (Z.to_nat (4 * shape1 img)) with (Z.to_nat (shape1 img * 4))
      by (f_equal; lia).
    apply tile_concat.
    apply Nat2Z.inj. rewrite Hlen, H2, Nat2Z.inj_mul, !Z2Nat.id by lia. lia.
Qed.

Lemma two_by_two_contiguous : contiguous Examples.two_by_two.
Proof. unfold contiguous. cbn. lia. Defined.

Lemma rows_streamed_tile_the_buffer_witness :
  let img := Examples.two_by_two in
  length (rows_passed img 2) = 2%nat /\
  Forall (fun row => 4 * 2 <= Z.of_nat (length row)) (rows_passed img 2) /\
  concat (map (firstn (Z.to_nat (4 * 2))) (rows_passed img 2)) = data img.
Proof.
  exact (rows_streamed_tile_the_buffer Examples.two_by_two two_by_two_contiguous
           eq_refl eq_refl eq_refl).
Defined.

(** X11. For a C-contiguous raster with fewer than four channels (say RGB)
    and positive sides, the pointer [write_to_file] hands to [png_write_row]
    for the last row has only shape[2]*width bytes of the buffer behind it,
    fewer than the 4*width bytes of the RGBA row announced in the header. *)
Theorem last_row_short_with_fewer_channels :
  forall img : ndarray,
    contiguous img ->
    shape2 img < 4 ->
    0 < shape0 img < 2 ^ 31 ->
    0 < shape1 img < 2 ^ 31 ->
    let w := width_of img in
    let h := height_of img in
    let last_row := elem_ptr img (h - 1) 0 0 in
    In last_row (rows_passed img h) /\
    Z.of_nat (length last_row) = shape2 img * w /\
    Z.of_nat (length last_row) < 4 * w.
Proof.
  intros img Hc H2 Hs0 Hs1 w h last_row.
  assert (Hw : w = shape1 img) by (apply width_of_small; lia).
  assert (Hh : h = shape0 img) by (apply height_of_small; lia).
  assert (Hlen : Z.of_nat (length last_row) = shape2 img * w).
  { unfold last_row. rewrite (elem_ptr_row_length img (h - 1) Hc) by lia.
    rewrite Hh, Hw. lia. }
  split; [|split].
  - unfold rows_passed, last_row.
    apply (in_map (fun row_idx => elem_ptr img row_idx 0 0)).
    apply In_range. lia.
  - exact Hlen.
  - rewrite Hlen. nia.
Qed.

Lemma two_by_two_rgb_contiguous : contiguous Examples.two_by_two_rgb.
Proof. unfold contiguous. cbn. lia. Defined.

Lemma last_row_short_with_fewer_channels_witness :
  let img := Examples.two_by_two_rgb in
  let last_row := elem_ptr img (2 - 1) 0 0 in
  In last_row (rows_passed img 2) /\
  Z.of_nat (length last_row) = 3 * 2 /\
  Z.of_nat (length last_row) < 4 * 2.
Proof.
  exact (last_row_short_with_fewer_channels Examples.two_by_two_rgb
           two_by_two_rgb_contiguous eq_refl
           (conj eq_refl eq_refl) (conj eq_refl eq_refl)).
Defined.

(* ================================================================== *)
(** ** Which calls each path makes *)

Lemma save_greedy_rejected L img s t :
  final_params L img s = None ->
  exists e, save L img (Member COMPR_GREEDY) s t = (Raises e, t).
Proof.
  intros Hnone. destruct s as [|items]; [discriminate|].
  destruct items as [|c items]; [discriminate|].
  unfold save. cbn [is_COMPR_GREEDY truthy getitem nth_error].
  unfold bind, ret. rewrite as_uint8_t_run.
  destruct (is_uint8 c) eqn:Ec; [cbv beta iota|eexists; reflexivity].
  destruct items as [|m items]; [eexists; reflexivity|].
  cbn [nth_error]. rewrite as_uint8_t_run.
  destruct (is_uint8 m) eqn:Em; [cbv beta iota|eexists; reflexivity].
  destruct items as [|sg items]; [eexists; reflexivity|].
  cbn [nth_error]. rewrite as_uint8_t_run.
  destruct (is_uint8 sg) eqn:Es; [cbv beta iota|eexists; reflexivity].
  destruct items as [|f items]; [eexists; reflexivity|].
  cbn [nth_error]. rewrite as_uint8_t_run.
  destruct (is_uint8 f) eqn:Ef; [|eexists; reflexivity].
  cbn [final_params] in Hnone. rewrite Ec, Em, Es, Ef in Hnone. discriminate.
Qed.

Lemma Forall_encode_events L img w h rs :
  Forall is_write_to_file (map (encode_event L img w h) rs).
Proof.
  apply Forall_forall. intros e He.
  apply in_map_iff in He as (r & <- & _). exact I.
Qed.

(** X13. Each path of [save] uses its own libpng interface and a bounded
    number of calls.  With COMPR_GREEDY every call into the encoder is a
    [write_to_file] and there are at most nine, whatever the settings; with
    any other method every call is a [png_image_write_to_memory] and there
    are one or two.  Earlier entries of the trace are kept. *)
Theorem save_calls_by_path :
  forall (L : Libs) (img : ndarray) (m : method_arg) (s : settings_arg)
         (t : trace),
    exists evs,
      snd (save L img m s t) = t ++ evs /\
      if is_COMPR_GREEDY m
      then Forall is_write_to_file evs /\ (length evs <= 9)%nat
      else Forall is_image_write_to_memory evs /\ (1 <= length evs <= 2)%nat.
Proof.
  intros L img m s t. destruct (is_COMPR_GREEDY m) eqn:Hm.
  - apply is_greedy_inv in Hm. subst m.
    destruct (final_params L img s) as [r|] eqn:Hr.
    + rewrite (save_greedy_run L img s r t Hr). cbn [snd].
      eexists. split; [reflexivity|]. split.
      * apply Forall_app. split.
        -- destruct (searches s); [apply Forall_encode_events|constructor].
        -- constructor; [exact I|constructor].
      * rewrite length_app. destruct (searches s); cbn; lia.
    + destruct (save_greedy_rejected L img s t Hr) as (e & ->).
      exists []. cbn [snd]. rewrite app_nil_r.
      split; [reflexivity|]. split; [constructor|cbn; lia].
  - rewrite (save_default_run L img m s t Hm).
    destruct (_ =? 0); [|destruct (_ =? 0)]; cbn [snd];
      eexists; (split; [reflexivity|]); (split; [|cbn; lia]);
      repeat constructor.
Qed.

(** X14. When the first trial (compression level 9, memory level 8,
    strategy 0, no filter) is stored below 0x7fffffff and no other trial is
    stored smaller, the search returns its tuple: a later trial of the same
    size never takes its place. *)
Theorem first_trial_wins_ties :
  forall (L : Libs) (img : ndarray) (w h : Z) (t : trace),
    stored_size L img w h (mk_replay 9 8 0 0x08) < 0x7fffffff ->
    (forall c, In c candidates ->
       stored_size L img w h (mk_replay 9 8 0 0x08) <= stored_size L img w h c) ->
    fst (optimize_greedy_iterate L img w h t) = Returns (mk_replay 9 8 0 0x08).
Proof.
  intros L img w h t Hlt Hleast.
  rewrite optimize_greedy_iterate_run. cbn [fst]. f_equal.
  destruct (search_fold_outcome L img w h candidates)
    as [(_ & _ & Hall)|(i & Hi & Hbest & _ & Hall & Hbefore)].
  - rewrite (Hall _ (or_introl eq_refl)) in Hlt. lia.
  - fold (winner L img w h) in Hi, Hbest.
    destruct i as [|i].
    + cbn in Hi. congruence.
    + specialize (Hbefore 0%nat _ (Nat.lt_0_succ i) eq_refl).
      specialize (Hleast _ (nth_error_In _ _ Hi)).
      rewrite Hbest in Hbefore. lia.
Qed.

Lemma first_trial_wins_ties_witness :
  fst (optimize_greedy_iterate Examples.flat_libs Examples.pixel 1 1 []) =
  Returns (mk_replay 9 8 0 0x08).
Proof.
  apply (first_trial_wins_ties Examples.flat_libs Examples.pixel 1 1 []).
  - vm_compute. reflexivity.
  - intros c Hc.
    repeat (destruct Hc as [<-|Hc]; [vm_compute; discriminate|]).
    destruct Hc.
Defined.
